(** * Agilent oscilloscope driver ([pylablib/devices/Agilent/base.py])

    A shallow embedding of the waveform pipeline of [IAgilentScope]:
    data-format negotiation, preamble parsing, sweep reading and scaling,
    the channel multiplexer and the set/get pairs.  Device I/O is threaded
    through a small state-and-exception monad that records every command
    and query; Python floats are IEEE binary64 primitive floats. *)

From Stdlib Require Import ZArith List String Ascii Bool Lia.
From Stdlib Require Import Floats DecimalString.
Import ListNotations.

Set Warnings "-inexact-float".

Open Scope string_scope.
Open Scope Z_scope.

(** ** Python text primitives

    Text is modelled as [string]; every protocol string of the driver is
    ASCII.  A character is read as the code point of the same number. *)

Module Py.

Definition code (c : ascii) : Z := Z.of_N (N_of_ascii c).

(** [str.isspace] on the code points below 256: the ASCII controls 9 to
    13 and 28 to 31, the space, the next-line control and the no-break
    space. *)
Definition is_space (c : ascii) : bool :=
  let n := code c in
  ((9 <=? n) && (n <=? 13)) || ((28 <=? n) && (n <=? 32))
  || (n =? 133) || (n =? 160).

(** The white space [int()] and [float()] skip around a literal: tab,
    newline, vertical tab, form feed, carriage return and space, and the
    two white-space code points above 126, which the conversion first turns
    into spaces.  The separators 28 to 31 are white space for [str.strip]
    but not here. *)
Definition is_num_space (c : ascii) : bool :=
  let n := code c in
  ((9 <=? n) && (n <=? 13)) || (n =? 32) || (n =? 133) || (n =? 160).

Definition is_digit (c : ascii) : bool :=
  let n := code c in (48 <=? n) && (n <=? 57).

Definition digit_val (c : ascii) : Z := code c - 48.

Fixpoint lstrip (cs : list ascii) : list ascii :=
  match cs with
  | c :: cs' => if is_space c then lstrip cs' else cs
  | [] => []
  end.

Definition strip_chars (cs : list ascii) : list ascii :=
  rev (lstrip (rev (lstrip cs))).

Fixpoint num_lstrip (cs : list ascii) : list ascii :=
  match cs with
  | c :: cs' => if is_num_space c then num_lstrip cs' else cs
  | [] => []
  end.

Definition num_strip (cs : list ascii) : list ascii :=
  rev (num_lstrip (rev (num_lstrip cs))).

(** [s.strip()] *)
Definition strip (s : string) : string :=
  string_of_list_ascii (strip_chars (list_ascii_of_string s)).

Definition upper_char (c : ascii) : ascii :=
  let n := code c in
  if (97 <=? n) && (n <=? 122) then ascii_of_N (N_of_ascii c - 32) else c.

(** [s.upper()] on ASCII text. *)
Fixpoint upper (s : string) : string :=
  match s with
  | EmptyString => EmptyString
  | String c s' => String (upper_char c) (upper s')
  end.

(** [s.startswith(p)] *)
Definition startswith (s p : string) : bool := String.prefix p s.

(** [s.split(sep)] for a one-character separator: the pieces between
    consecutive separators, never an empty list. *)
Fixpoint split_acc (sep : ascii) (s : string) (cur : string) : list string :=
  match s with
  | EmptyString => [cur]
  | String c s' =>
      if Ascii.eqb c sep then cur :: split_acc sep s' EmptyString
      else split_acc sep s' (cur ++ String c EmptyString)
  end.

Definition split (sep : ascii) (s : string) : list string :=
  split_acc sep s EmptyString.

(** [sep.join(l)] *)
Fixpoint join (sep : string) (l : list string) : string :=
  match l with
  | [] => EmptyString
  | [x] => x
  | x :: ((_ :: _) as tl) => x ++ sep ++ join sep tl
  end.

(** [str(n)] for an integer. *)
Definition str_of_int (z : Z) : string := NilZero.string_of_int (Z.to_int z).

Definition hex_digit (n : Z) : ascii :=
  if n <? 10 then ascii_of_N (Z.to_N (48 + n)) else ascii_of_N (Z.to_N (87 + n)).

Definition contains_char (c : ascii) (s : string) : bool :=
  existsb (Ascii.eqb c) (list_ascii_of_string s).

(** The double-quote character. *)
Definition dquote : ascii := ascii_of_N 34.

Definition printable (c : ascii) : bool :=
  let n := code c in
  negb ((n <? 32) || ((127 <=? n) && (n <=? 160)) || (n =? 173)).

Definition repr_char (quote c : ascii) : string :=
  if Ascii.eqb c quote || Ascii.eqb c "\"%char then String "\"%char (String c EmptyString)
  else if Ascii.eqb c "009"%char then "\t"
  else if Ascii.eqb c "010"%char then "\n"
  else if Ascii.eqb c "013"%char then "\r"
  else if printable c then String c EmptyString
  else String "\"%char (String "x"%char
         (String (hex_digit (code c / 16)) (String (hex_digit (code c mod 16)) EmptyString))).

Fixpoint repr_body (quote : ascii) (s : string) : string :=
  match s with
  | EmptyString => EmptyString
  | String c s' => repr_char quote c ++ repr_body quote s'
  end.

(** [repr(s)] of a text: single quotes unless the text has a single quote
    and no double quote. *)
Definition repr_str (s : string) : string :=
  let quote :=
    if contains_char "'"%char s && negb (contains_char dquote s)
    then dquote else "'"%char in
  String quote (repr_body quote s ++ String quote EmptyString).

(** [str(l)] of a list of texts, as [str.format] inserts it. *)
Definition repr_list (l : list string) : string :=
  "[" ++ join ", " (map repr_str l) ++ "]".

End Py.

(** ** Exceptions and results *)

Inductive exn : Type :=
| AgilentError (msg : string)        (* [self.Error], the driver's own error *)
| ValueError (msg : string)
| IndexError (msg : string)
| OverflowError                      (* numpy: an integer outside int64 *)
| ZeroDivisionError                  (* a float divided by zero *)
| BackendError (msg : string).       (* raised by the transport collaborator *)

Inductive result (A : Type) : Type :=
| Ok (a : A)
| Raise (e : exn).

Arguments Ok {A} a.
Arguments Raise {A} e.

(** ** Python numbers *)

(** The binary64 value nearest to an integer (conversion of a Python or
    numpy integer to a float). *)
Definition float_of_Z (z : Z) : float :=
  SF2Prim (binary_normalize prec emax z 0 false).

(** The binary64 value nearest to [m * 10^e10] for [m >= 0], with the sign
    [neg]; the quotient of a negative exponent carries a sticky bit, so the
    one rounding of [binary_normalize] is the rounding of the exact value. *)
Definition float_of_decimal (neg : bool) (m e10 : Z) : float :=
  let sgn (x : Z) := if neg then - x else x in
  if m =? 0 then (if neg then neg_zero else zero)
  else if 0 <=? e10 then
    SF2Prim (binary_normalize prec emax (sgn (m * 10 ^ e10)) 0 neg)
  else
    let d := 10 ^ (- e10) in
    let s := Z.max 0 (64 + Z.log2 d - Z.log2 m) in
    let num := m * 2 ^ s in
    let q := num / d in
    let sticky := if num mod d =? 0 then 0 else 1 in
    SF2Prim (binary_normalize prec emax (sgn (2 * q + sticky)) (- s - 1) neg).

Module PyNum.

Import Py.

(** A run [digit (["_"] digit)*] of a numeric literal: its digits and the
    rest of the text. *)
Fixpoint digitpart_tail (cs : list ascii) : list Z * list ascii :=
  match cs with
  | c :: cs' =>
      if is_digit c then
        let (ds, r) := digitpart_tail cs' in (digit_val c :: ds, r)
      else if Ascii.eqb c "_"%char then
        match cs' with
        | d :: cs'' =>
            if is_digit d then
              let (ds, r) := digitpart_tail cs'' in (digit_val d :: ds, r)
            else ([], cs)
        | [] => ([], cs)
        end
      else ([], cs)
  | [] => ([], [])
  end.

Definition digitpart (cs : list ascii) : option (list Z * list ascii) :=
  match cs with
  | c :: cs' =>
      if is_digit c then
        let (ds, r) := digitpart_tail cs' in Some (digit_val c :: ds, r)
      else None
  | [] => None
  end.

Definition digits_value (ds : list Z) : Z :=
  fold_left (fun acc d => 10 * acc + d) ds 0.

(** An optional sign: [(negative, rest)]. *)
Definition sign (cs : list ascii) : bool * list ascii :=
  match cs with
  | c :: cs' =>
      if Ascii.eqb c "-"%char then (true, cs')
      else if Ascii.eqb c "+"%char then (false, cs')
      else (false, cs)
  | [] => (false, [])
  end.

(** CPython's default limit on the digits of a decimal literal. *)
Definition max_str_digits : Z := 4300.

(** [int(s)] of a text, base 10. *)
Definition int (s : string) : result Z :=
  let (neg, body) := sign (num_strip (list_ascii_of_string s)) in
  match digitpart body with
  | Some (ds, []) =>
      if max_str_digits <? Z.of_nat (List.length ds) then
        Raise (ValueError
          ("Exceeds the limit (4300 digits) for integer string conversion: "
           ++ "value has " ++ str_of_int (Z.of_nat (List.length ds))
           ++ " digits; use sys.set_int_max_str_digits() to increase the limit"))
      else
        let v := digits_value ds in Ok (if neg then - v else v)
  | _ => Raise (ValueError ("invalid literal for int() with base 10: " ++ repr_str s))
  end.

(** The exponent suffix of a float literal: [None] when malformed. *)
Definition exponent (cs : list ascii) : option Z :=
  match cs with
  | [] => Some 0
  | c :: cs' =>
      if Ascii.eqb (upper_char c) "E"%char then
        let (neg, body) := sign cs' in
        match digitpart body with
        | Some (ds, []) =>
            let v := digits_value ds in Some (if neg then - v else v)
        | _ => None
        end
      else None
  end.

(** The decimal body of a float literal (no sign): mantissa digits and the
    power of ten. *)
Definition decimal (cs : list ascii) : option (Z * Z) :=
  let (ids, r1) :=
    match digitpart cs with Some p => p | None => ([], cs) end in
  let (fds, r2) :=
    match r1 with
    | c :: r1' =>
        if Ascii.eqb c "."%char then
          match digitpart r1' with Some p => p | None => ([], r1') end
        else ([], r1)
    | [] => ([], [])
    end in
  match (ids ++ fds)%list with
  | [] => None
  | ds =>
      match exponent r2 with
      | Some e => Some (digits_value ds, e - Z.of_nat (List.length fds))
      | None => None
      end
  end.

(** [float(s)] of a text. *)
Definition float (s : string) : result PrimFloat.float :=
  let (neg, body) := sign (num_strip (list_ascii_of_string s)) in
  let word := upper (string_of_list_ascii body) in
  if String.eqb word "INF" || String.eqb word "INFINITY" then
    Ok (if neg then neg_infinity else infinity)
  else if String.eqb word "NAN" then Ok nan
  else
    match decimal body with
    | Some (m, e10) => Ok (float_of_decimal neg m e10)
    | None => Raise (ValueError ("could not convert string to float: " ++ repr_str s))
    end.

(** [t[i]] on a tuple: an index must fit a signed 64-bit size; negative
    indices count from the end. *)
Definition tuple_index {A} (t : list A) (i : Z) : result A :=
  if negb ((- 2 ^ 63 <=? i) && (i <? 2 ^ 63)) then
    Raise (IndexError "cannot fit 'int' into an index-sized integer")
  else
    let n := Z.of_nat (List.length t) in
    let j := if i <? 0 then i + n else i in
    if (0 <=? j) && (j <? n) then
      match nth_error t (Z.to_nat j) with
      | Some a => Ok a
      | None => Raise (IndexError "tuple index out of range")
      end
    else Raise (IndexError "tuple index out of range").

End PyNum.

(** ** Data model *)

(** Python values that cross the driver's interface: channel ids, command
    arguments, symbolic parameter values. *)
Inductive value : Type :=
| VBool (b : bool)
| VInt (z : Z)
| VFloat (f : float)
| VStr (s : string).

(** The element kinds of a [DataFormat] and their one-word codes. *)
Inductive fmt_kind : Type := KindInt | KindUInt | KindFloat | KindAscii.

Definition kind_code (k : fmt_kind) : string :=
  match k with
  | KindInt => "i"
  | KindUInt => "u"
  | KindFloat => "f"
  | KindAscii => "ascii"
  end.

(** [data_format.DataFormat(size, kind, byteorder)]; a text descriptor such
    as ["<u2"] or ["ascii"] stands for the record [DataFormat.from_desc]
    makes of it. *)
Record DataFormat : Type := mkDataFormat {
  size : option Z;
  kind : fmt_kind;
  byteorder : option string
}.

Definition is_ascii (f : DataFormat) : bool :=
  String.eqb (kind_code (kind f)) "ascii".

(** [a in b] on two texts: [a] occurs in [b]. *)
Fixpoint str_in (a b : string) : bool :=
  String.prefix a b ||
  match b with
  | EmptyString => false
  | String _ b' => str_in a b'
  end.

(** [x in {1,2}] for a format size. *)
Definition size_in_1_2 (s : option Z) : bool :=
  match s with
  | Some n => (n =? 1) || (n =? 2)
  | None => false
  end.

(** One decoded element of a transferred array. *)
Inductive sample : Type :=
| SInt (z : Z)
| SFloat (f : float).

(** [float(x)] of an element. *)
Definition sample_float (x : sample) : float :=
  match x with
  | SInt z => float_of_Z z
  | SFloat f => f
  end.

(** The preamble dictionary built by [_build_wfmpre], one field per key. *)
Record wfmpre : Type := mkWfmpre {
  fmt : DataFormat;
  type : string;
  pts : Z;
  count : Z;
  xzero : float;
  xincr : float;
  ptoff : Z;
  ymult : float;
  yzero : float;
  yoff : float
}.

(** A scaled waveform: the rows [(x, y)] of [np.column_stack((xpts,ypts))]. *)
Definition waveform : Type := list (float * float).

(** [interface.EnumParameterClass(name, value_map, value_case, match_prefix)]
    as the driver declares them. *)
Record EnumParameterClass : Type := mkEnum {
  enum_name : string;
  value_map : list (value * string);
  value_case : option string;
  match_prefix : bool
}.

(** The attributes of a scope object the methods read. *)
Record IAgilentScope : Type := mkScope {
  _main_channels_idx : list Z;
  _hor_pos_mode : string;
  _probe_attenuation_comm : option (string * string);
  default_data_fmt : DataFormat
}.

Definition _wfmpre_comm : string := "WAV:PRE".
Definition _aux_channels : list string := ["ext"; "line"; "wgen"].

(** ** Device I/O *)

(** What the driver asks of the transport, in the order it asks. *)
Inductive event : Type :=
| EvWrite (msg : string) (arg : option value) (arg_type : option string)
| EvAsk (msg : string) (data_type : string)
| EvRead (what : string).

(** The parts of [pylablib.core] the driver calls and [src/] does not hold:
    the SCPI transport ([write], [ask] with its reply conversion, [read],
    [read_binary_array_data]) acting on a device state [D], the array
    decoder, the conversions of the parameter classes and the printing of a
    [DataFormat].  Every transport call may raise. *)
Class Core (D : Type) : Type := {
  dev_write : string -> option value -> option string -> D -> result unit * D;
  dev_ask : string -> D -> result string * D;
  dev_ask_float : string -> D -> result float * D;
  dev_ask_bool : string -> D -> result bool * D;
  dev_read_raw : D -> result string * D;
  dev_read_binary_array_data : D -> result string * D;
  parse_array_data : string -> DataFormat -> bool -> result (list sample);
  param_direct : EnumParameterClass -> value -> result string;
  param_inverse : EnumParameterClass -> string -> result value;
  DataFormat_str : DataFormat -> string
}.

(** The device and the record of everything sent to it. *)
Record world (D : Type) : Type := mkWorld {
  dev : D;
  log : list event
}.

Arguments mkWorld {D} dev log.
Arguments dev {D} w.
Arguments log {D} w.

(** Computations of the driver: a device state threaded through, an
    exception ending the computation with the device as it then is. *)
Definition M (D A : Type) : Type := world D -> result A * world D.

Definition ret {D A} (a : A) : M D A := fun w => (Ok a, w).

Definition raise {D A} (e : exn) : M D A := fun w => (Raise e, w).

Definition bind {D A B} (c : M D A) (k : A -> M D B) : M D B :=
  fun w =>
    match c w with
    | (Ok a, w') => k a w'
    | (Raise e, w') => (Raise e, w')
    end.

(** A pure computation that may raise. *)
Definition lift {D A} (r : result A) : M D A := fun w => (r, w).

Declare Scope scope_monad.
Delimit Scope scope_monad with M.
Notation "x <- c ;; k" := (bind c (fun x => k))
  (at level 61, c at next level, right associativity) : scope_monad.
Notation "c ;; k" := (bind c (fun _ => k))
  (at level 61, right associativity) : scope_monad.
Open Scope scope_monad.

(** One transport call, recorded. *)
Definition io {D A} (ev : event) (f : D -> result A * D) : M D A :=
  fun w =>
    let (r, d') := f (dev w) in
    (r, mkWorld d' (log w ++ [ev])%list).

Definition fmap {D A B} (f : A -> B) (c : M D A) : M D B :=
  a <- c ;; ret (f a).

(** Run a computation and hand its outcome over as a value: the capture of
    a failure by a caller. *)
Definition try_ {D A} (c : M D A) : M D (result A) :=
  fun w => let (r, w') := c w in (Ok r, w').

(** ** The channel multiplexer *)

(** The channel argument of a multiplexed method: one id or a list. *)
Inductive chan_arg : Type :=
| One (c : value)
| Many (cs : list value).

Inductive return_kind : Type := RkList | RkDict.

(** What a multiplexed call returns: the plain result for one channel,
    an ordered sequence or a mapping from channel id for several. *)
Inductive mux_result (A : Type) : Type :=
| MuxScalar (a : A)
| MuxList (l : list (result A))
| MuxDict (d : list (value * result A)).

Arguments MuxScalar {A} a.
Arguments MuxList {A} l.
Arguments MuxDict {A} d.

(** Truth of a result in a Python condition. *)
Definition mux_truth (r : mux_result bool) : bool :=
  match r with
  | MuxScalar b => b
  | MuxList l => negb (Nat.eqb (List.length l) 0)
  | MuxDict d => negb (Nat.eqb (List.length d) 0)
  end.

Section Multiplexer.

Context {D : Type}.

(** Modelled from the spec: the loop of [general.muxcall] over a list of
    ids, one call per id in the given order.  With the partial-failure
    policy a failure on one channel is kept as that channel's outcome and
    the remaining channels are still called; without it the first failure
    propagates. *)
Fixpoint mux_over {A} (allow_partial : bool) (func : value -> M D A)
    (cs : list value) : M D (list (value * result A)) :=
  match cs with
  | [] => ret []
  | c :: cs' =>
      r <- (if allow_partial then try_ (func c) else fmap Ok (func c)) ;;
      rest <- mux_over allow_partial func cs' ;;
      ret ((c, r) :: rest)
  end.

Definition special_lookup {B} (special_args : list (string * B)) (c : value)
    : option B :=
  match c with
  | VStr s =>
      match find (fun p => String.eqb (fst p) s) special_args with
      | Some p => Some (snd p)
      | None => None
      end
  | _ => None
  end.

(** Modelled from the spec: [general.muxcall], the generic multiplexer of
    [pylablib.core.utils], is not under [src/].  A special value of the
    channel argument is replaced by the list its function gives; a single id
    makes the plain call and returns its result; a list makes one call per
    id in the caller's order and returns a mapping from id to result or an
    ordered sequence.  The per-channel value lists of [mux_argnames] are
    left out: a value given to a multiplexed setter goes to every channel. *)
Definition muxcall {S A} (special_args : list (string * (S -> list value)))
    (rk : return_kind) (allow_partial : bool)
    (func : value -> M D A) (self : S) (arg : chan_arg) : M D (mux_result A) :=
  let many (cs : list value) :=
    r <- mux_over allow_partial func cs ;;
    ret (match rk with
         | RkList => MuxList (map snd r)
         | RkDict => MuxDict r
         end) in
  match arg with
  | Many cs => many cs
  | One c =>
      match special_lookup special_args c with
      | Some expand => many (expand self)
      | None => fmap MuxScalar (func c)
      end
  end.

Definition ch_func (self : IAgilentScope) : list value :=
  map VInt (_main_channels_idx self).

(** [muxchannel(return_kind=...)]: multiplex a method over its channel
    argument, ["all"] standing for the main channels. *)
Definition muxchannel {A} (rk : option return_kind) (func : value -> M D A)
    : IAgilentScope -> chan_arg -> M D (mux_result A) :=
  muxcall [("all", ch_func)]
    (match rk with Some k => k | None => RkList end) true func.

End Multiplexer.

(** ** The scope methods *)

(** [np.int64] arithmetic wraps. *)
Definition wrap_int64 (z : Z) : Z := (z + 2 ^ 63) mod 2 ^ 64 - 2 ^ 63.

(** A Python integer that numpy can take as an int64 operand. *)
Definition fits_int64 (z : Z) : bool := (- 2 ^ 63 <=? z) && (z <? 2 ^ 63).

(** [max(a, b)] and [min(a, b)] of Python on floats: the first argument
    unless the second is strictly beyond it. *)
Definition py_max (a b : float) : float := if (a <? b)%float then b else a.
Definition py_min (a b : float) : float := if (b <? a)%float then b else a.

(** [a / b] on Python floats: a zero divisor raises, anything else is the
    IEEE quotient. *)
Definition py_div (a b : float) : result float :=
  if (b =? 0)%float then Raise ZeroDivisionError else Ok (a / b)%float.

Section Scope.

Context {D : Type} {core : Core D}.
Variable self : IAgilentScope.

Abbreviation M := (M D).

(** [self.write(msg, arg, arg_type)] *)
Definition write (msg : string) (arg : option value) (arg_type : option string)
    : M unit :=
  io (EvWrite msg arg arg_type) (dev_write msg arg arg_type).

(** [self.ask(msg)] and [self.ask(msg, data_type)] *)
Definition ask (msg : string) : M string :=
  io (EvAsk msg "string") (dev_ask msg).
Definition ask_float (msg : string) : M float :=
  io (EvAsk msg "float") (dev_ask_float msg).
Definition ask_bool (msg : string) : M bool :=
  io (EvAsk msg "bool") (dev_ask_bool msg).

(** [self.read("raw")] and [self.read_binary_array_data()] *)
Definition read_raw : M string := io (EvRead "raw") dev_read_raw.
Definition read_binary_array_data : M string :=
  io (EvRead "binary_array_data") dev_read_binary_array_data.

(** *** Parameter classes declared by the driver *)

Definition _main_channels : list (value * string) :=
  map (fun i => (VInt i, "chan" ++ Py.str_of_int i)) (_main_channels_idx self).

Definition p_input_channel : EnumParameterClass :=
  mkEnum "input_channel" _main_channels (Some "upper") true.

Definition p_channel : EnumParameterClass :=
  mkEnum "channel"
    (_main_channels ++ map (fun s => (VStr s, s)) _aux_channels)%list
    (Some "upper") true.


(** Modelled from the spec: the decorator [interface.use_parameters] is not
    under [src/].  [@interface.use_parameters(channel=cls)] makes the channel
    argument reach the method as the wire token its parameter class gives;
    an argument the class rejects raises before the method runs. *)
Definition use_parameters {A} (cls : EnumParameterClass)
    (f : string -> M A) : value -> M A :=
  fun channel => ch <- lift (param_direct cls channel) ;; f ch.

(** *** Acquisition state *)

Definition is_grabbing : M bool :=
  r <- ask ":ACQ:COMP?" ;;
  ret (negb (String.eqb r "100")).

(** *** Trigger level *)



(** *** Horizontal axis *)

Definition get_horizontal_span : M float :=
  v <- ask_float ":TIM:SCAL?" ;;
  ret (v * 10)%float.


Definition _to_horizontal_pos (center_time : float) : M float :=
  if String.eqb (_hor_pos_mode self) "real_center" then ret center_time
  else
    span <- get_horizontal_span ;;
    q <- lift (py_div center_time span) ;;
    let rel_offset := (q * 100 + 50)%float in
    let rel_offset := py_min (py_max rel_offset 0) 100 in
    ret rel_offset.




(** *** Per-channel settings

    A method reached through [self._wip] (an accessor of the interface
    module, not under [src/]) runs with the conversion of its arguments
    switched off; called with one converted channel name the multiplexer
    makes the plain call, so [wip_f] is the method body on a wire name. *)

Definition wip_get_vertical_span (channel : string) : M float :=
  v <- ask_float (":" ++ channel ++ ":SCAL?") ;;
  ret (v * 10)%float.

Definition get_vertical_span : chan_arg -> M (mux_result float) :=
  muxchannel None (use_parameters p_input_channel wip_get_vertical_span) self.

Definition set_vertical_span (channel : chan_arg) (span : float)
    : M (mux_result float) :=
  muxchannel None
    (use_parameters p_input_channel (fun channel =>
       write (":" ++ channel ++ ":SCAL") (Some (VFloat (span / 10))) (Some "float") ;;
       wip_get_vertical_span channel))
    self channel.

Definition wip_get_vertical_position (channel : string) : M float :=
  ask_float (":" ++ channel ++ "::OFFS?").


Definition set_vertical_position (channel : chan_arg) (position : float)
    : M (mux_result float) :=
  muxchannel None
    (use_parameters p_input_channel (fun channel =>
       write (":" ++ channel ++ "::OFFS") (Some (VFloat position)) (Some "float") ;;
       wip_get_vertical_position channel))
    self channel.

Definition wip_is_channel_enabled (channel : string) : M bool :=
  ask_bool (":" ++ channel ++ ":DISP?").

Definition is_channel_enabled : chan_arg -> M (mux_result bool) :=
  muxchannel None (use_parameters p_input_channel wip_is_channel_enabled) self.

Definition enable_channel (channel : chan_arg) (enabled : bool)
    : M (mux_result bool) :=
  muxchannel None
    (use_parameters p_input_channel (fun channel =>
       write (":" ++ channel ++ ":DISP") (Some (VBool enabled)) (Some "bool") ;;
       wip_is_channel_enabled channel))
    self channel.






Definition wip_get_probe_attenuation (channel : string) : M float :=
  match _probe_attenuation_comm self with
  | None => ret 1%float
  | Some (comm, kind) =>
      value <- ask_float (":" ++ channel ++ ":" ++ comm ++ "?") ;;
      if String.eqb kind "att" then ret value else lift (py_div 1 value)
  end.

Definition get_probe_attenuation : chan_arg -> M (mux_result float) :=
  muxchannel None (use_parameters p_input_channel wip_get_probe_attenuation) self.

Definition set_probe_attenuation (channel : chan_arg) (attenuation : float)
    : M (mux_result float) :=
  muxchannel None
    (use_parameters p_input_channel (fun channel =>
       match _probe_attenuation_comm self with
       | None => ret tt
       | Some (comm, kind) =>
           a <- (if String.eqb kind "att" then ret attenuation
                 else lift (py_div 1 attenuation)) ;;
           write (":" ++ channel ++ ":" ++ comm) (Some (VFloat a)) None
       end ;;
       wip_get_probe_attenuation channel))
    self channel.

(** *** Channel selection *)

Definition get_selected_channel : M value :=
  r <- ask ":WAV:SOUR?" ;;
  lift (param_inverse p_input_channel (Py.strip r)).

Definition select_channel (channel : value) : M value :=
  use_parameters p_input_channel (fun channel =>
    write (":WAV:SOUR " ++ channel) None None ;;
    get_selected_channel) channel.

Definition _normalize_channel (channel : value) : M value :=
  fmap VStr (lift (param_direct p_channel channel)).

Definition _get_channel (channel : option value) : M value :=
  match channel with
  | None => get_selected_channel
  | Some c => _normalize_channel c
  end.

Definition _change_channel (channel : option value) : M unit :=
  match channel with
  | Some c => select_channel c ;; ret tt
  | None => ret tt
  end.

(** *** Data format *)

(** The [fmt] argument of [set_data_format]: ["default"] or a descriptor. *)
Inductive fmt_arg : Type :=
| FmtDefault
| FmtDesc (f : DataFormat).

(** Python's [==] on the objects a format size is compared with: [None],
    integers and texts; objects of different kinds are never equal. *)
Inductive pyobj : Type :=
| ONone
| OInt (z : Z)
| OStr (s : string).

Definition obj_eqb (a b : pyobj) : bool :=
  match a, b with
  | ONone, ONone => true
  | OInt x, OInt y => x =? y
  | OStr s, OStr t => String.eqb s t
  | _, _ => false
  end.

Definition size_obj (s : option Z) : pyobj :=
  match s with
  | Some n => OInt n
  | None => ONone
  end.

Definition byteorder_is (f : DataFormat) (b : string) : bool :=
  match byteorder f with
  | Some o => String.eqb o b
  | None => false
  end.

Definition get_data_format (form : option string) : M DataFormat :=
  form <- match form with
          | Some (String _ _ as f) => ret f
          | _ => r <- ask ":WAV:FORM?" ;; ret (Py.upper r)
          end ;;
  if Py.startswith form "ASC" then ret (mkDataFormat None KindAscii None)
  else
    let size := if Py.startswith form "WORD" then 2 else 1 in
    uns <- ask_bool "WAV:UNS?" ;;
    let kind := if uns then KindUInt else KindInt in
    border <- ask ":WAV:BYT?" ;;
    let border := if String.eqb (Py.upper border) "LSBF" then ">" else "<" in
    ret (mkDataFormat (Some size) kind (Some border)).

Definition set_data_format (fmt : fmt_arg) : M DataFormat :=
  let fmt := match fmt with
             | FmtDefault => default_data_fmt self
             | FmtDesc f => f
             end in
  (if is_ascii fmt then write ":WAV:FORM ASCII" None None
   else
     if negb (str_in (kind_code (kind fmt)) "iu") || negb (size_in_1_2 (size fmt))
     then raise (ValueError ("format " ++ DataFormat_str fmt ++ " isn't supported"))
     else
       (if String.eqb (kind_code (kind fmt)) "u"
        then write ":WAV:UNS" (Some (VBool true)) (Some "bool")
        else write ":WAV:UNS" (Some (VBool false)) (Some "bool")) ;;
       if obj_eqb (size_obj (size fmt)) (OStr "1") then write ":WAV:FORM BYTE" None None
       else
         write ":WAV:FORM WORD" None None ;;
         if byteorder_is fmt ">" then write ":WAV:BYT LSBF" None None
         else write ":WAV:BYT MSBF" None None) ;;
  get_data_format None.

(** *** Preamble *)

Definition fmt_table : list string := ["BYTE"; "WORD"; ""; "ASCII"].
Definition type_table : list string := ["NORM"; "PEAK"; "AVER"; "HRES"].

(** [data[i]] on a list known to be long enough. *)
Definition field (data : list string) (i : nat) : string := nth i data "".

Definition _build_wfmpre (data : list string) : M wfmpre :=
  if Z.of_nat (List.length data) <? 10 then
    raise (AgilentError ("incomplete preamble: " ++ Py.repr_list data))
  else
    c0 <- lift (PyNum.int (field data 0)) ;;
    form <- lift (PyNum.tuple_index fmt_table c0) ;;
    fmt <- get_data_format (Some form) ;;
    c1 <- lift (PyNum.int (field data 1)) ;;
    type <- lift (PyNum.tuple_index type_table c1) ;;
    pts <- lift (PyNum.int (field data 2)) ;;
    count <- lift (PyNum.int (field data 3)) ;;
    xzero <- lift (PyNum.float (field data 5)) ;;
    xincr <- lift (PyNum.float (field data 4)) ;;
    ptoff <- lift (PyNum.int (field data 6)) ;;
    ymult <- lift (PyNum.float (field data 7)) ;;
    yzero <- lift (PyNum.float (field data 8)) ;;
    yoff <- lift (PyNum.float (field data 9)) ;;
    ret (mkWfmpre fmt type pts count xzero xincr ptoff ymult yzero yoff).

(** [get_wfmpre(channel, enable)] for one channel or [None]. *)
Definition get_wfmpre (channel : option value) (enable : bool) : M wfmpre :=
  _change_channel channel ;;
  (if enable then
     channel <- _get_channel channel ;;
     on <- is_channel_enabled (One channel) ;;
     if negb (mux_truth on) then enable_channel (One channel) true ;; ret tt
     else ret tt
   else ret tt) ;;
  data <- ask (":" ++ _wfmpre_comm ++ "?") ;;
  _build_wfmpre (Py.split ";" data).

(** *** Reading and scaling *)

(** The x axis is [np.arange(len(data))-ptoff], computed on int64 (numpy 2
    on a 64-bit platform): a point offset outside int64 is refused with an
    OverflowError, a difference outside int64 wraps around; the
    multiplication turns the array into floats. *)
Definition _scale_data (data : list sample) (wfmpre : option wfmpre)
    : M waveform :=
  wfmpre <- match wfmpre with
            | Some p => ret p
            | None => get_wfmpre None true
            end ;;
  if negb (fits_int64 (ptoff wfmpre)) then raise OverflowError else
  let xpts :=
    map (fun i => (float_of_Z (wrap_int64 (Z.of_nat i - ptoff wfmpre))
                   * xincr wfmpre + xzero wfmpre)%float)
        (seq 0 (List.length data)) in
  let ypts :=
    if is_ascii (fmt wfmpre) then map sample_float data
    else map (fun x => ((sample_float x - yoff wfmpre) * ymult wfmpre
                        + yzero wfmpre)%float) data in
  ret (combine xpts ypts).

Definition length_error (n p : Z) : exn :=
  AgilentError ("received data length " ++ Py.str_of_int n
                ++ " is not equal to the number of points " ++ Py.str_of_int p).

Definition _read_sweep_fast (channel : value) (wfmpre : option wfmpre)
    : M waveform :=
  use_parameters p_input_channel (fun channel =>
    write (":WAV:SOUR " ++ channel) None None ;;
    wfmpre <- match wfmpre with
              | Some p => ret p
              | None => get_wfmpre None false
              end ;;
    write "WAV:DATA?" None None ;;
    dh <- (if is_ascii (fmt wfmpre)
           then data <- read_raw ;; ret (data, true)
           else data <- read_binary_array_data ;; ret (data, false)) ;;
    trace <- lift (parse_array_data (fst dh) (fmt wfmpre) (snd dh)) ;;
    if negb (Z.of_nat (List.length trace) =? pts wfmpre) then
      raise (length_error (Z.of_nat (List.length trace)) (pts wfmpre))
    else _scale_data trace (Some wfmpre)) channel.

End Scope.

(** The scope object [__init__] makes for a given number of channels:
    main channels [1..nchannels] and the attribute values of the class. *)
Definition new_scope (nchannels : nat) : IAgilentScope :=
  mkScope (map Z.of_nat (seq 1 nchannels)) "real_center"
          (Some ("PROB", "att")) (mkDataFormat (Some 1) KindInt (Some "<")).

(** ** A parameter registry and a simulated instrument

    A concrete [Core] to run the methods on: the parameter conversions as
    the spec describes them and a register-file instrument that stores what
    is written and answers queries from what is stored. *)

Definition value_eqb (a b : value) : bool :=
  match a, b with
  | VBool x, VBool y => Bool.eqb x y
  | VInt x, VInt y => x =? y
  | VFloat x, VFloat y => (x =? y)%float
  | VStr x, VStr y => String.eqb x y
  | _, _ => false
  end.

Definition enum_case (cls : EnumParameterClass) (s : string) : string :=
  match value_case cls with
  | Some "upper" => Py.upper s
  | _ => s
  end.

(** Modelled from the spec: the conversions of [interface.EnumParameterClass]
    are not under [src/].  A declared symbol is converted to its wire token
    (in the class's case); an undeclared one fails with a ValueError. *)
Definition enum_direct (cls : EnumParameterClass) (v : value) : result string :=
  match find (fun p => value_eqb (fst p) v) (value_map cls) with
  | Some p => Ok (enum_case cls (snd p))
  | None => Raise (ValueError ("value is not allowed for parameter " ++ enum_name cls))
  end.

(** Modelled from the spec: a wire token is converted back to the declared
    symbol whose token it is, after case folding; for a class with
    [match_prefix] a declared token that is a prefix of the reply matches
    too, the longest one wins, and a longest match shared by two symbols is
    ambiguous. *)
Definition enum_inverse (cls : EnumParameterClass) (token : string) : result value :=
  let t := enum_case cls token in
  let hit (p : value * string) :=
    let d := enum_case cls (snd p) in
    String.eqb d t || (match_prefix cls && String.prefix d t) in
  let hits := filter hit (value_map cls) in
  let best := fold_left (fun n p => Nat.max n (String.length (snd p))) hits 0%nat in
  match filter (fun p => Nat.eqb (String.length (snd p)) best) hits with
  | p :: rest =>
      if forallb (fun q => value_eqb (fst q) (fst p)) rest then Ok (fst p)
      else Raise (ValueError ("reply is ambiguous for parameter " ++ enum_name cls))
  | [] => Raise (ValueError ("reply is not a value of parameter " ++ enum_name cls))
  end.

Module Sim.

(** The instrument: its registers by command header and the payload of
    the next data transfer. *)
Record device : Type := mkDevice {
  regs : list (string * value);
  payload : string
}.

Fixpoint drop_colons (s : string) : string :=
  match s with
  | String ":" s' => drop_colons s'
  | _ => s
  end.

Fixpoint drop_query (s : string) : string :=
  match s with
  | EmptyString => EmptyString
  | String "?" EmptyString => EmptyString
  | String c s' => String c (drop_query s')
  end.

(** The header of a message and the argument written after a space. *)
Definition header (msg : string) : string * option string :=
  match Py.split " " (drop_query (drop_colons msg)) with
  | [h] => (h, None)
  | h :: tl => (h, Some (Py.join " " tl))
  | [] => (EmptyString, None)
  end.

Fixpoint lookup (h : string) (r : list (string * value)) : option value :=
  match r with
  | [] => None
  | (k, v) :: r' => if String.eqb k h then Some v else lookup h r'
  end.

Fixpoint store (h : string) (v : value) (r : list (string * value))
    : list (string * value) :=
  match r with
  | [] => [(h, v)]
  | (k, x) :: r' => if String.eqb k h then (k, v) :: r' else (k, x) :: store h v r'
  end.

(** The instrument keeps a trigger level within [-5, 5] volts. *)
Definition coerce (h : string) (v : value) : value :=
  if String.eqb h "TRIG:LEVEL" then
    match v with
    | VFloat f => VFloat (py_min (py_max f (-5)) 5)
    | VInt z => VFloat (py_min (py_max (float_of_Z z) (-5)) 5)
    | _ => v
    end
  else v.

Definition sim_write (msg : string) (arg : option value) (_ : option string)
    (d : device) : result unit * device :=
  let (h, inline) := header msg in
  let v := match arg, inline with
           | Some v, _ => v
           | None, Some s => VStr s
           | None, None => VStr EmptyString
           end in
  (Ok tt, mkDevice (store h (coerce h v) (regs d)) (payload d)).

Definition no_reply {A} (msg : string) : result A :=
  Raise (BackendError ("timeout during read operation: " ++ msg)).

Definition sim_ask (msg : string) (d : device) : result string * device :=
  (match lookup (fst (header msg)) (regs d) with
   | Some (VStr s) => Ok s
   | Some (VInt z) => Ok (Py.str_of_int z)
   | Some (VBool b) => Ok (if b then "1" else "0")
   | _ => no_reply msg
   end, d).

Definition sim_ask_float (msg : string) (d : device) : result float * device :=
  (match lookup (fst (header msg)) (regs d) with
   | Some (VFloat f) => Ok f
   | Some (VInt z) => Ok (float_of_Z z)
   | Some (VStr s) => PyNum.float s
   | Some (VBool b) => Ok (if b then 1 else 0)%float
   | None => no_reply msg
   end, d).

Definition sim_ask_bool (msg : string) (d : device) : result bool * device :=
  (match lookup (fst (header msg)) (regs d) with
   | Some (VBool b) => Ok b
   | Some (VInt z) => Ok (negb (z =? 0))
   | Some (VStr "1") | Some (VStr "ON") => Ok true
   | Some (VStr "0") | Some (VStr "OFF") => Ok false
   | Some _ => Raise (ValueError "reply is not a boolean")
   | None => no_reply msg
   end, d).

Definition sim_read (d : device) : result string * device := (Ok (payload d), d).

Definition signed (bits v : Z) : Z := if v <? 2 ^ (bits - 1) then v else v - 2 ^ bits.

(** Decode a binary payload of one- or two-byte integers. *)
Fixpoint decode_binary (sz : Z) (sgn big : bool) (cs : list ascii)
    : result (list sample) :=
  let conv bits v := SInt (if sgn then signed bits v else v) in
  match cs with
  | [] => Ok []
  | a :: cs' =>
      if sz =? 1 then
        match decode_binary sz sgn big cs' with
        | Ok l => Ok (conv 8 (Py.code a) :: l)
        | Raise e => Raise e
        end
      else
        match cs' with
        | b :: cs'' =>
            let v := if big then 256 * Py.code a + Py.code b
                     else 256 * Py.code b + Py.code a in
            match decode_binary sz sgn big cs'' with
            | Ok l => Ok (conv 16 v :: l)
            | Raise e => Raise e
            end
        | [] => Raise (ValueError "payload is not a whole number of elements")
        end
  end.

Fixpoint decode_ascii (items : list string) : result (list sample) :=
  match items with
  | [] => Ok []
  | s :: items' =>
      match PyNum.float s, decode_ascii items' with
      | Ok f, Ok l => Ok (SFloat f :: l)
      | Raise e, _ => Raise e
      | _, Raise e => Raise e
      end
  end.

Definition sim_parse_array_data (data : string) (f : DataFormat) (_ : bool)
    : result (list sample) :=
  if is_ascii f then decode_ascii (Py.split "," data)
  else
    match size f, kind f with
    | Some sz, KindInt =>
        decode_binary sz true (byteorder_is f ">") (list_ascii_of_string data)
    | Some sz, KindUInt =>
        decode_binary sz false (byteorder_is f ">") (list_ascii_of_string data)
    | _, _ => Raise (ValueError "unsupported element kind")
    end.

Definition DataFormat_text (f : DataFormat) : string :=
  match byteorder f with Some b => b | None => EmptyString end
  ++ kind_code (kind f)
  ++ match size f with Some n => Py.str_of_int n | None => EmptyString end.

#[global] Instance core : Core device := {
  dev_write := sim_write;
  dev_ask := sim_ask;
  dev_ask_float := sim_ask_float;
  dev_ask_bool := sim_ask_bool;
  dev_read_raw := sim_read;
  dev_read_binary_array_data := sim_read;
  parse_array_data := sim_parse_array_data;
  param_direct := enum_direct;
  param_inverse := enum_inverse;
  DataFormat_str := DataFormat_text
}.

(** A three-channel scope and an instrument in byte mode, stopped. *)
Definition scope3 : IAgilentScope := new_scope 3.

Definition preamble_reply : string := "1;0;1000;1;1e-6;0;-500;0.01;0;0".

Definition bench : device :=
  mkDevice
    [("WAV:FORM", VStr "BYTE"); ("WAV:UNS", VBool false); ("WAV:BYT", VStr "MSBF");
     ("ACQ:COMP", VStr "100"); ("TRIG:LEVEL", VFloat 0);
     ("TIM:SCAL", VFloat 1e-3); ("TIM:POS", VFloat 0);
     ("CHAN1:SCAL", VFloat 0.5); ("CHAN2:SCAL", VFloat 1); ("CHAN3:SCAL", VFloat 2);
     ("CHAN1:DISP", VBool true); ("CHAN2:DISP", VBool false); ("CHAN3:DISP", VBool true);
     ("CHAN1:COUP", VStr "DC"); ("CHAN2:COUP", VStr "AC"); ("CHAN3:COUP", VStr "DC");
     ("CHAN1::OFFS", VFloat 0); ("CHAN2::OFFS", VFloat 0); ("CHAN3::OFFS", VFloat 0);
     ("CHAN1:PROB", VFloat 10); ("CHAN2:PROB", VFloat 1); ("CHAN3:PROB", VFloat 1);
     ("WAV:SOUR", VStr "CHAN1"); ("WAV:PRE", VStr preamble_reply)]
    EmptyString.

Definition start (d : device) : world device := mkWorld d [].

End Sim.

(** ** Notions used by the statements *)

Section Notions.

Context {D : Type} {core : Core D}.

(** Every event a computation adds to the record satisfies [P]. *)
Definition emits {A} (P : event -> Prop) (c : M D A) : Prop :=
  forall w, exists evs,
    log (snd (c w)) = (log w ++ evs)%list /\ Forall P evs.

(** A computation without device I/O: one outcome, whatever the device,
    and the device and the record unchanged. *)
Definition is_pure {A} (c : M D A) : Prop :=
  exists r, forall w, c w = (r, w).


(** What the two queries that complete a binary format of [sz] bytes give
    when asked on [w]: the signedness first, the byte order second, the
    first failure ending the lookup; the kind is unsigned exactly when the
    device says so, the byte order [>] exactly when it answers LSBF. *)
Definition binary_format_answers (sz : Z) (w : world D)
    : result DataFormat * world D :=
  match dev_ask_bool "WAV:UNS?" (dev w) with
  | (Raise e, d1) =>
      (Raise e, mkWorld d1 (log w ++ [EvAsk "WAV:UNS?" "bool"]))
  | (Ok b, d1) =>
      match dev_ask ":WAV:BYT?" d1 with
      | (Raise e, d2) =>
          (Raise e, mkWorld d2 (log w ++ [EvAsk "WAV:UNS?" "bool";
                                          EvAsk ":WAV:BYT?" "string"]))
      | (Ok s, d2) =>
          (Ok (mkDataFormat (Some sz)
                 (if b then KindUInt else KindInt)
                 (Some (if String.eqb (Py.upper s) "LSBF" then ">" else "<"))),
           mkWorld d2 (log w ++ [EvAsk "WAV:UNS?" "bool";
                                 EvAsk ":WAV:BYT?" "string"]))
      end
  end.

(** A parse [run] takes its format from the lookup [lookup]: it fails as
    the lookup fails; otherwise it ends on the world the lookup left (it
    does no I/O of its own), and a preamble it returns has the format the
    lookup gave. *)
Definition format_from (lookup : result DataFormat * world D)
    (run : result wfmpre * world D) : Prop :=
  match lookup with
  | (Raise e, w1) => run = (Raise e, w1)
  | (Ok f, w1) => snd run = w1 /\ forall p, fst run = Ok p -> fmt p = f
  end.

(** The stages of [_read_sweep_fast] before its length check: channel
    selection, preamble, data query, transfer and decoding. *)
Definition decoded_trace (self : IAgilentScope) (channel : value)
    (pre : option wfmpre) : M D (wfmpre * list sample) :=
  ch <- lift (param_direct (p_input_channel self) channel) ;;
  write (":WAV:SOUR " ++ ch) None None ;;
  p <- match pre with
       | Some p => ret p
       | None => get_wfmpre self None false
       end ;;
  write "WAV:DATA?" None None ;;
  data <- (if is_ascii (fmt p) then read_raw else read_binary_array_data) ;;
  trace <- lift (parse_array_data data (fmt p) (is_ascii (fmt p))) ;;
  ret (p, trace).

End Notions.

(** The three queries by which [get_data_format] reads the format. *)
Definition is_format_query (e : event) : Prop :=
  e = EvAsk ":WAV:FORM?" "string" \/ e = EvAsk "WAV:UNS?" "bool"
  \/ e = EvAsk ":WAV:BYT?" "string".

(** A truth value read as a number ([True == 1], [False == 0]). *)
Definition bool_as_int (b : bool) : Z := if b then 1 else 0.

(** The preamble with every field but the format. *)
Definition scaling_fields (p : wfmpre)
    : string * Z * Z * float * float * Z * float * float * float :=
  (type p, pts p, count p, xzero p, xincr p, ptoff p, ymult p, yzero p, yoff p).

Module SimCases.

Import Sim.

Definition set_reg (h : string) (v : value) (d : device) : device :=
  mkDevice (store h v (regs d)) (payload d).

Definition with_payload (s : string) (d : device) : device :=
  mkDevice (regs d) s.

(** The bench instrument in unsigned mode, and while acquiring. *)
Definition bench_unsigned : device := set_reg "WAV:UNS" (VBool true) bench.
Definition bench_running : device := set_reg "ACQ:COMP" (VStr "42") bench.



(** A byte-mode transfer of [n] samples of value 100. *)
Definition bytes (n : nat) : string := string_of_list_ascii (repeat "d"%char n).

(** A preamble for unsigned bytes, [n] points, with the scaling of the
    affine example. *)
Definition example_format : DataFormat := mkDataFormat (Some 1) KindUInt (Some "<").

Definition example_wfmpre (n : Z) : wfmpre :=
  mkWfmpre example_format "NORM" n 1 0 2e-9 0 0.02 0 128.

(** The same preamble for three points with the point offset [off]. *)
Definition offset_wfmpre (off : Z) : wfmpre :=
  mkWfmpre example_format "NORM" 3 1 0 2e-9 off 0.02 0 128.

End SimCases.

(** ** Further methods of the scope

    The channel list, channel detection, the number of points, raw reads
    and the reads of one or several sweeps. *)

(** Further parts of [pylablib.core] the driver calls and [src/] does not
    hold: the validity probe of a command ([_is_command_valid]), [ask] with
    the data type ["int"], and the comparison [!=] of a [DataFormat] with a
    descriptor. *)
Class CoreExt (D : Type) : Type := {
  dev_is_command_valid : string -> D -> result bool * D;
  dev_ask_int : string -> D -> result Z * D;
  fmt_differs : DataFormat -> DataFormat -> bool
}.

(** One computation per element, in order; the first failure ends it. *)
Fixpoint mapM {D A B} (f : A -> M D B) (l : list A) : M D (list B) :=
  match l with
  | [] => ret []
  | a :: l' => b <- f a ;; bs <- mapM f l' ;; ret (b :: bs)
  end.

(** A dictionary of preambles by channel, in insertion order; a value may
    be [None]. *)
Definition wfmpre_dict : Type := list (value * option wfmpre).

(** [ch in d] *)
Definition dict_mem (ch : value) (d : wfmpre_dict) : bool :=
  existsb (fun kv => value_eqb (fst kv) ch) d.

(** [d[ch]] and [d.get(ch, None)]: [None] also for a missing key. *)
Definition dict_get (ch : value) (d : wfmpre_dict) : option wfmpre :=
  match find (fun kv => value_eqb (fst kv) ch) d with
  | Some kv => snd kv
  | None => None
  end.

(** [d[ch] = p] *)
Fixpoint dict_set (ch : value) (p : option wfmpre) (d : wfmpre_dict)
    : wfmpre_dict :=
  match d with
  | [] => [(ch, p)]
  | (k, v) :: d' =>
      if value_eqb k ch then (k, p) :: d' else (k, v) :: dict_set ch p d'
  end.

(** [dict(zip(channels, wfmpres))] *)
Definition dict_of_zip (channels : list value) (ps : list (option wfmpre))
    : wfmpre_dict :=
  fold_left (fun d kv => dict_set (fst kv) (snd kv) d) (combine channels ps) [].

(** The [wfmpres] argument of [read_multiple_sweeps]. *)
Inductive wfmpres_arg : Type :=
| WNone
| WList (l : list (option wfmpre))
| WDict (d : wfmpre_dict).

(** What [read_multiple_sweeps] returns: the sweeps, or the sweeps with the
    preambles used. *)
Inductive sweeps_result : Type :=
| Sweeps (sweeps : list waveform)
| SweepsWith (sweeps : list waveform) (wfmpres : wfmpre_dict).

Definition sweeps_of (r : sweeps_result) : list waveform :=
  match r with
  | Sweeps s => s
  | SweepsWith s _ => s
  end.

(** [max(rng)] of a nonempty sequence of integers. *)
Definition max_of (x : Z) (l : list Z) : Z := fold_left Z.max l x.


Section ScopeMore.

Context {D : Type} {core : Core D} {ext : CoreExt D}.
Variable self : IAgilentScope.

(** [self.ask(msg, "int")] *)
Definition ask_int (msg : string) : M D Z :=
  io (EvAsk msg "int") (dev_ask_int msg).




Definition get_channels_number : Z :=
  Z.of_nat (List.length (_main_channels_idx self)).

Definition get_channels (only_main : bool) : list string :=
  let channels := map (fun i => "CHAN" ++ Py.str_of_int i) (_main_channels_idx self) in
  if only_main then channels else (channels ++ _aux_channels)%list.

(** *** Number of points *)

(** Modelled from the spec: [funcargparse.check_parameter_range] is not
    under [src/]; an unknown symbolic value is rejected with a ValueError
    before any command is sent. *)
Definition check_parameter_range (v name : string) (allowed : list string)
    : result unit :=
  if existsb (String.eqb v) allowed then Ok tt
  else Raise (ValueError ("parameter " ++ name ++ " is out of range")).

Definition get_points_number (kind : string) : M D Z :=
  lift (check_parameter_range kind "kind" ["acq"; "trace"; "send"]) ;;
  ask_int ":WAV:POIN?".

Definition _p_points_mode : EnumParameterClass :=
  mkEnum "points_mode"
    [(VStr "NORMal", "NORM"); (VStr "MAXimum", "MAX"); (VStr "raw", "raw")]
    (Some "upper") true.

Definition _set_data_resolution (resolution : value) : M D string :=
  use_parameters _p_points_mode (fun resolution =>
    write ":WAV:POIN:MODE" (Some (VStr resolution)) None ;;
    ask ":WAV:POIN:MODE?") resolution.

Definition set_points_number (pts_num : Z) (reset_limits : bool) : M D Z :=
  (if pts_num <=? 1000 then _set_data_resolution (VStr "NORM")
   else _set_data_resolution (VStr "MAX")) ;;
  write ":WAV:POIN" (Some (VInt pts_num)) (Some "int") ;;
  get_points_number "send".

Definition get_data_pts_range : M D (Z * Z) :=
  n <- get_points_number "acq" ;;
  ret (1, n).

(** [rng] is [None] or a sequence of integers; [min] of an empty sequence
    raises. *)
Definition set_data_pts_range (rng : option (list Z)) : M D (Z * Z) :=
  stop <- match rng with
          | None => get_points_number "acq"
          | Some [] => raise (ValueError "min() arg is an empty sequence")
          | Some (x :: l) => ret (max_of x l)
          end ;;
  set_points_number stop true ;;
  get_data_pts_range.

(** *** Raw data *)

Definition read_raw_data (channel : option value) (fmt : option fmt_arg)
    : M D (list sample) :=
  fmt <- match fmt with
         | None => get_data_format None
         | Some a => set_data_format self a
         end ;;
  _change_channel self channel ;;
  write "WAV:DATA?" None None ;;
  dh <- (if is_ascii fmt
         then data <- read_raw ;; ret (data, true)
         else data <- read_binary_array_data ;; ret (data, false)) ;;
  lift (parse_array_data (fst dh) fmt (snd dh)).

(** *** Several sweeps *)

(** The loop that fetches the preamble of every channel without one. *)
Fixpoint fill_wfmpres (channels : list value) (wfmpres : wfmpre_dict)
    : M D wfmpre_dict :=
  match channels with
  | [] => ret wfmpres
  | ch :: channels' =>
      if negb (dict_mem ch wfmpres) then
        p <- get_wfmpre self (Some ch) false ;;
        fill_wfmpres channels' (dict_set ch (Some p) wfmpres)
      else fill_wfmpres channels' wfmpres
  end.

Definition read_multiple_sweeps (channels : list value) (wfmpres : wfmpres_arg)
    (ensure_fmt : bool) (return_wfmpres : bool) : M D sweeps_result :=
  match channels with
  | [] => ret (Sweeps [])
  | _ :: _ =>
      channels <- mapM (_normalize_channel self) channels ;;
      let wfmpres :=
        match wfmpres with
        | WNone => []
        | WList l => dict_of_zip channels l
        | WDict d => d
        end in
      (if ensure_fmt then
         let pre := match channels with
                    | c :: _ => dict_get c wfmpres
                    | [] => None
                    end in
         let fmt := match pre with
                    | Some p => fmt p
                    | None => default_data_fmt self
                    end in
         cur <- get_data_format None ;;
         if fmt_differs cur fmt then set_data_format self (FmtDesc fmt) ;; ret tt
         else ret tt
       else ret tt) ;;
      wfmpres <- fill_wfmpres channels wfmpres ;;
      sweeps <- mapM (fun ch => _read_sweep_fast self ch (dict_get ch wfmpres))
                     channels ;;
      ret (if return_wfmpres then SweepsWith sweeps wfmpres else Sweeps sweeps)
  end.

(** [read_multiple_sweeps([channel],[wfmpre],...)[0]] *)
Definition read_sweep (channel : value) (wfmpre : option wfmpre)
    (ensure_fmt : bool) : M D waveform :=
  r <- read_multiple_sweeps [channel] (WList [wfmpre]) ensure_fmt false ;;
  match sweeps_of r with
  | s :: _ => ret s
  | [] => raise (IndexError "list index out of range")
  end.

End ScopeMore.

(** The simulated instrument for the further methods: a command is valid
    when its header has a register, and formats differ when they are not
    the same record. *)
Module SimMore.

Import Sim.

Definition sim_is_command_valid (msg : string) (d : device)
    : result bool * device :=
  (Ok (match lookup (fst (header msg)) (regs d) with
       | Some _ => true
       | None => false
       end), d).

Definition sim_ask_int (msg : string) (d : device) : result Z * device :=
  (match lookup (fst (header msg)) (regs d) with
   | Some (VInt z) => Ok z
   | Some (VStr s) => PyNum.int s
   | Some _ => Raise (ValueError "reply is not an integer")
   | None => no_reply msg
   end, d).

Definition option_eqb {A} (eqb : A -> A -> bool) (a b : option A) : bool :=
  match a, b with
  | Some x, Some y => eqb x y
  | None, None => true
  | _, _ => false
  end.

Definition fmt_eqb (a b : DataFormat) : bool :=
  option_eqb Z.eqb (size a) (size b)
  && String.eqb (kind_code (kind a)) (kind_code (kind b))
  && option_eqb String.eqb (byteorder a) (byteorder b).

#[global] Instance ext : CoreExt device := {
  dev_is_command_valid := sim_is_command_valid;
  dev_ask_int := sim_ask_int;
  fmt_differs := fun a b => negb (fmt_eqb a b)
}.

(** The value a write stores: its argument, else the text after the
    header. *)
Definition written (arg : option value) (inline : option string) : value :=
  match arg, inline with
  | Some v, _ => v
  | None, Some s => VStr s
  | None, None => VStr EmptyString
  end.

(** A registry that also takes a wire token where a symbol is expected, as
    the driver relies on: it hands ["NORM"] to the class whose symbols are
    NORMal, MAXimum and raw, and passes normalized channel names on. *)
Definition enum_direct_tokens (cls : EnumParameterClass) (v : value)
    : result string :=
  match enum_direct cls v, v with
  | Ok t, _ => Ok t
  | Raise e, VStr s =>
      match enum_inverse cls s with
      | Ok _ => Ok (enum_case cls s)
      | Raise _ => Raise e
      end
  | Raise e, _ => Raise e
  end.

Definition core_tokens : Core device := {|
  dev_write := sim_write;
  dev_ask := sim_ask;
  dev_ask_float := sim_ask_float;
  dev_ask_bool := sim_ask_bool;
  dev_read_raw := sim_read;
  dev_read_binary_array_data := sim_read;
  parse_array_data := sim_parse_array_data;
  param_direct := enum_direct_tokens;
  param_inverse := enum_inverse;
  DataFormat_str := DataFormat_text
|}.

(** The bench with four channels answering the bandwidth query and a
    points register. *)
Definition bench4 : device :=
  mkDevice
    (("CHAN2:BWL", VStr "0") :: ("CHAN3:BWL", VStr "0") :: ("CHAN4:BWL", VStr "0")
     :: ("WAV:POIN", VInt 500) :: ("WAV:POIN:MODE", VStr "NORM") :: regs bench)
    (payload bench).

(** The same instrument announcing three points of signed bytes, with a
    three-byte transfer waiting. *)
Definition bench3 : device :=
  mkDevice (store "WAV:PRE" (VStr "0;0;3;1;2e-9;0;0;0.02;0;128") (regs bench4))
           "dde".

End SimMore.

(** An event that is a query. *)
Definition is_ask (e : event) : Prop :=
  match e with
  | EvAsk _ _ => True
  | _ => False
  end.

(** The events of a read with a known preamble: the channel selection, the
    data request and the transfer. *)
Definition is_transfer (e : event) : Prop :=
  match e with
  | EvWrite msg None None =>
      msg = "WAV:DATA?" \/ exists ch, msg = ":WAV:SOUR " ++ ch
  | EvRead _ => True
  | _ => False
  end.

(** The commands [set_data_format] may send for a descriptor: for ASCII the
    one format command; for a binary one the signedness, the word format
    and the byte order, LSBF for the order [>] and MSBF for any other. *)
Definition is_format_command (f : DataFormat) (e : event) : Prop :=
  if is_ascii f then e = EvWrite ":WAV:FORM ASCII" None None
  else
    e = EvWrite ":WAV:UNS" (Some (VBool (String.eqb (kind_code (kind f)) "u")))
          (Some "bool")
    \/ e = EvWrite ":WAV:FORM WORD" None None
    \/ e = EvWrite (if byteorder_is f ">" then ":WAV:BYT LSBF" else ":WAV:BYT MSBF")
            None None.


(** A query, or the command that switches the display of a channel on. *)
Definition is_ask_or_enable (e : event) : Prop :=
  is_ask e
  \/ exists ch, e = EvWrite (":" ++ ch ++ ":DISP") (Some (VBool true)) (Some "bool").

(** * Properties *)

(** ** Laws of the monad *)

Section MonadLaws.

Context {D : Type}.

Lemma bind_ret_l {A B} (a : A) (k : A -> M D B) w :
  bind (ret a) k w = k a w.
Proof. reflexivity. Qed.

Lemma bind_raise_l {A B} (e : exn) (k : A -> M D B) w :
  bind (raise e) k w = (Raise e, w).
Proof. reflexivity. Qed.

Lemma bind_lift_ok {A B} (r : result A) (a : A) (k : A -> M D B) w :
  r = Ok a -> bind (lift r) k w = k a w.
Proof. intros ->. reflexivity. Qed.

Lemma bind_lift_raise {A B} (r : result A) (e : exn) (k : A -> M D B) w :
  r = Raise e -> bind (lift r) k w = (Raise e, w).
Proof. intros ->. reflexivity. Qed.

Lemma bind_assoc {A B C} (c : M D A) (k : A -> M D B) (h : B -> M D C) w :
  bind (bind c k) h w = bind c (fun a => bind (k a) h) w.
Proof.
  unfold bind. destruct (c w) as [[a | e] w']; reflexivity.
Qed.

Lemma bind_ext {A B} (c : M D A) (k k' : A -> M D B) w :
  (forall a w', k a w' = k' a w') -> bind c k w = bind c k' w.
Proof.
  intros H. unfold bind. destruct (c w) as [[a | e] w']; auto.
Qed.

End MonadLaws.

(** ** Text lemmas *)

Lemma append_nil_r (s : string) : s ++ "" = s.
Proof. induction s as [| c s IH]; simpl; [reflexivity | now rewrite IH]. Qed.

Lemma append_assoc (a b c : string) : (a ++ b) ++ c = a ++ (b ++ c).
Proof. induction a as [| x a IH]; simpl; [reflexivity | now rewrite IH]. Qed.

Lemma split_acc_cons (sep : ascii) (s cur : string) :
  exists x tl, Py.split_acc sep s cur = x :: tl.
Proof.
  revert cur. induction s as [| c s IH]; intros cur; simpl.
  - now exists cur, [].
  - destruct (Ascii.eqb c sep); [now exists cur, (Py.split_acc sep s "") | apply IH].
Qed.

Lemma join_cons2 (sep a b : string) (l : list string) :
  Py.join sep (a :: b :: l) = a ++ sep ++ Py.join sep (b :: l).
Proof. reflexivity. Qed.

(** Joining the pieces of a split with the separator gives the text back. *)
Lemma join_split_acc (sep : ascii) (s cur : string) :
  Py.join (String sep "") (Py.split_acc sep s cur) = cur ++ s.
Proof.
  revert cur. induction s as [| c s IH]; intros cur; cbn [Py.split_acc].
  - cbn. now rewrite append_nil_r.
  - destruct (Ascii.eqb c sep) eqn:E.
    + apply Ascii.eqb_eq in E. subst c.
      destruct (split_acc_cons sep s "") as (x & tl & Hs).
      specialize (IH ""). rewrite Hs in *.
      rewrite join_cons2, IH. reflexivity.
    + rewrite IH, append_assoc. reflexivity.
Qed.

Lemma join_split (sep : ascii) (s : string) :
  Py.join (String sep "") (Py.split sep s) = s.
Proof. unfold Py.split. now rewrite join_split_acc. Qed.

(** ** Preamble with too few fields *)

Section PreambleErrors.

Context {D : Type} {core : Core D}.

Lemma build_wfmpre_short (data : list string) (w : world D) :
  (List.length data < 10)%nat ->
  _build_wfmpre data w
  = (Raise (AgilentError ("incomplete preamble: " ++ Py.repr_list data)), w).
Proof.
  intros H. unfold _build_wfmpre.
  replace (Z.of_nat (List.length data) <? 10) with true
    by (symmetry; apply Z.ltb_lt; lia).
  reflexivity.
Qed.

(** C3: a preamble reply that splits into fewer than 10 fields makes the
    parser raise the driver's error, with a message that shows the fields of
    the reply (which joined by [;] are the raw reply); no preamble is
    returned and the device is not touched. *)
Theorem incomplete_preamble_raises (reply : string) (w : world D) :
  (List.length (Py.split ";" reply) < 10)%nat ->
  _build_wfmpre (Py.split ";" reply) w
  = (Raise (AgilentError
       ("incomplete preamble: " ++ Py.repr_list (Py.split ";" reply))), w)
  /\ Py.join ";" (Py.split ";" reply) = reply.
Proof.
  intros H. split.
  - now apply build_wfmpre_short.
  - apply join_split.
Qed.

End PreambleErrors.

Lemma incomplete_preamble_raises_witness :
  (List.length (Py.split ";" "1;0;1000") < 10)%nat
  /\ fst (_build_wfmpre (Py.split ";" "1;0;1000") (Sim.start Sim.bench))
     = Raise (AgilentError "incomplete preamble: ['1', '0', '1000']").
Proof.
  split; [vm_compute; lia |].
  assert (H : (List.length (Py.split ";" "1;0;1000") < 10)%nat) by (vm_compute; lia).
  rewrite (proj1 (incomplete_preamble_raises "1;0;1000" (Sim.start Sim.bench) H)).
  reflexivity.
Defined.

(** ** Data format negotiation *)

Section FormatValidation.

Context {D : Type} {core : Core D}.
Variable self : IAgilentScope.

Lemma unsupported_check (f : DataFormat) :
  is_ascii f = false ->
  (kind f <> KindInt /\ kind f <> KindUInt)
  \/ (size f <> Some 1 /\ size f <> Some 2) ->
  negb (str_in (kind_code (kind f)) "iu") || negb (size_in_1_2 (size f)) = true.
Proof.
  intros Ha [[Hi Hu] | [H1 H2]].
  - destruct f as [s k b]; simpl in *.
    destruct k; try congruence; try discriminate Ha; reflexivity.
  - apply orb_true_iff. right.
    destruct (size f) as [n |]; simpl; [| reflexivity].
    destruct (n =? 1) eqn:E1; [apply Z.eqb_eq in E1; subst; congruence |].
    destruct (n =? 2) eqn:E2; [apply Z.eqb_eq in E2; subst; congruence |].
    reflexivity.
Qed.

(** C5: a binary descriptor whose kind is neither signed nor unsigned
    integer, or whose size is neither 1 nor 2, makes [set_data_format] raise
    a ValueError with the device and the record of commands exactly as they
    were: nothing has been written. *)
Theorem set_data_format_rejects_unsupported (f : DataFormat) (w : world D) :
  is_ascii f = false ->
  (kind f <> KindInt /\ kind f <> KindUInt)
  \/ (size f <> Some 1 /\ size f <> Some 2) ->
  set_data_format self (FmtDesc f) w
  = (Raise (ValueError ("format " ++ DataFormat_str f ++ " isn't supported")), w)
  /\ (default_data_fmt self = f ->
      set_data_format self FmtDefault w
      = (Raise (ValueError ("format " ++ DataFormat_str f ++ " isn't supported")), w)).
Proof.
  intros Ha Hbad.
  pose proof (unsupported_check f Ha Hbad) as Hc.
  split; [| intros Hd]; unfold set_data_format, bind;
    rewrite ?Hd, Ha, Hc; reflexivity.
Qed.

End FormatValidation.

Lemma set_data_format_rejects_unsupported_witness :
  let f := mkDataFormat (Some 4) KindUInt (Some ">") in
  set_data_format Sim.scope3 (FmtDesc f) (Sim.start Sim.bench)
  = (Raise (ValueError "format >u4 isn't supported"), Sim.start Sim.bench).
Proof.
  intros f.
  refine (proj1 (set_data_format_rejects_unsupported Sim.scope3 f
                   (Sim.start Sim.bench) _ _)).
  - reflexivity.
  - right. split; discriminate.
Defined.

(** ** Acquisition state *)

(** C9: for an instrument that answers [:ACQ:COMP?] with [100] (stopped)
    [is_grabbing] returns [False], and for one that answers [42] it returns
    [True]: a truth value, whose numeric reading is 0 or 1, not the count. *)
Lemma is_grabbing_returns_truth_value :
  fst (is_grabbing (Sim.start Sim.bench)) = Ok false
  /\ fst (is_grabbing (Sim.start SimCases.bench_running)) = Ok true
  /\ bool_as_int false <> 100 /\ bool_as_int true <> 42.
Proof.
  repeat split; try reflexivity; discriminate.
Qed.

Section Grabbing.

Context {D : Type} {core : Core D}.

(** Whatever the instrument answers, the result is the truth value of
    "the reply is not the text 100". *)
Lemma is_grabbing_spec (w : world D) (reply : string) (d' : D) :
  dev_ask ":ACQ:COMP?" (dev w) = (Ok reply, d') ->
  fst (is_grabbing w) = Ok (negb (String.eqb reply "100")).
Proof.
  intros H. unfold is_grabbing, bind, ask, io. rewrite H. reflexivity.
Qed.

End Grabbing.

(** ** What a computation sends to the device *)

Section Emission.

Context {D : Type} {core : Core D}.

Lemma emits_ret {A} (P : event -> Prop) (a : A) : emits P (@ret D A a).
Proof. intros w. exists []. simpl. now rewrite app_nil_r. Qed.

Lemma emits_raise {A} (P : event -> Prop) (e : exn) : emits P (@raise D A e).
Proof. intros w. exists []. simpl. now rewrite app_nil_r. Qed.

Lemma emits_lift {A} (P : event -> Prop) (r : result A) : emits P (@lift D A r).
Proof. intros w. exists []. simpl. now rewrite app_nil_r. Qed.

Lemma emits_io {A} (P : event -> Prop) (ev : event) (f : D -> result A * D) :
  P ev -> emits P (io ev f).
Proof.
  intros H w. exists [ev]. unfold io. destruct (f (dev w)) as [r d'].
  simpl. auto.
Qed.

Lemma emits_bind {A B} (P : event -> Prop) (c : M D A) (k : A -> M D B) :
  emits P c -> (forall a, emits P (k a)) -> emits P (bind c k).
Proof.
  intros Hc Hk w. unfold bind.
  destruct (Hc w) as (evs & Hl & Hp).
  destruct (c w) as [[a | e] w1]; simpl in Hl.
  - destruct (Hk a w1) as (evs' & Hl' & Hp').
    exists (evs ++ evs')%list. split.
    + now rewrite Hl', Hl, app_assoc.
    + apply Forall_app; auto.
  - exists evs. auto.
Qed.

Lemma emits_weaken {A} (P Q : event -> Prop) (c : M D A) :
  (forall e, P e -> Q e) -> emits P c -> emits Q c.
Proof.
  intros H Hc w. destruct (Hc w) as (evs & Hl & Hp).
  exists evs. split; [assumption |].
  eapply Forall_impl; eauto.
Qed.

Lemma emits_fmap {A B} (P : event -> Prop) (f : A -> B) (c : M D A) :
  emits P c -> emits P (fmap f c).
Proof. intros H. apply emits_bind; [assumption | intros; apply emits_ret]. Qed.

End Emission.

(** Peel one layer of a computation in an [emits] goal. *)
Ltac emits_step :=
  first
    [ apply emits_ret | apply emits_raise | apply emits_lift
    | apply emits_bind; [| intros ?] ].

Section FormatCommands.

Context {D : Type} {core : Core D}.
Variable self : IAgilentScope.

Lemma get_data_format_emits (form : option string) :
  emits is_format_query (@get_data_format D core form).
Proof.
  unfold get_data_format. apply emits_bind.
  - destruct form as [[| c f] |]; try apply emits_ret;
      (apply emits_bind; [apply emits_io; left; reflexivity | intros; apply emits_ret]).
  - intros f. destruct (Py.startswith f "ASC"); [apply emits_ret |].
    apply emits_bind; [apply emits_io; right; left; reflexivity | intros uns].
    apply emits_bind; [apply emits_io; right; right; reflexivity | intros b].
    apply emits_ret.
Qed.


(** The format lookup on a form name that is neither empty nor ASCII is
    the two queries; the form query is not made. *)
Lemma get_data_format_named (form : string) (w : world D) :
  form <> "" -> Py.startswith form "ASC" = false ->
  get_data_format (Some form) w
  = binary_format_answers (if Py.startswith form "WORD" then 2 else 1) w.
Proof.
  intros Hne Hasc. unfold get_data_format, binary_format_answers.
  destruct form as [| c f]; [congruence |].
  rewrite bind_ret_l, Hasc.
  unfold bind, ask_bool, ask, io, ret.
  destruct (dev_ask_bool "WAV:UNS?" (dev w)) as [[b | e] d1]; [| reflexivity].
  cbn [dev log].
  destruct (dev_ask ":WAV:BYT?" d1) as [[s0 | e] d2];
    now rewrite <- app_assoc.
Qed.

(** The format lookup on the empty form name asks the form first. *)
Lemma get_data_format_reserved (w : world D) :
  get_data_format (Some "") w
  = match dev_ask ":WAV:FORM?" (dev w) with
    | (Raise e, d1) =>
        (Raise e, mkWorld d1 (log w ++ [EvAsk ":WAV:FORM?" "string"]))
    | (Ok reply, d1) =>
        let w1 := mkWorld d1 (log w ++ [EvAsk ":WAV:FORM?" "string"]) in
        if Py.startswith (Py.upper reply) "ASC"
        then (Ok (mkDataFormat None KindAscii None), w1)
        else binary_format_answers
               (if Py.startswith (Py.upper reply) "WORD" then 2 else 1) w1
    end.
Proof.
  unfold get_data_format, binary_format_answers. cbv iota.
  unfold bind at 1 2, ask at 1, io at 1.
  destruct (dev_ask ":WAV:FORM?" (dev w)) as [[reply | e] d1]; [| reflexivity].
  unfold ret at 1. cbv zeta.
  destruct (Py.startswith (Py.upper reply) "ASC"); [reflexivity |].
  unfold bind, ask_bool, ask, io, ret. cbn [dev log].
  destruct (dev_ask_bool "WAV:UNS?" d1) as [[b | e] d2]; [| reflexivity].
  cbn [dev log].
  destruct (dev_ask ":WAV:BYT?" d2) as [[s0 | e] d3];
    now rewrite <- app_assoc.
Qed.

(** No descriptor makes [set_data_format] send the byte-format command. *)
Lemma set_data_format_never_byte (a : fmt_arg) :
  emits (fun e => e <> EvWrite ":WAV:FORM BYTE" None None)
        (set_data_format self a).
Proof.
  unfold set_data_format.
  set (f := match a with FmtDefault => default_data_fmt self | FmtDesc f => f end).
  apply emits_bind.
  - destruct (is_ascii f); [apply emits_io; discriminate |].
    destruct (negb (str_in (kind_code (kind f)) "iu") || negb (size_in_1_2 (size f)));
      [apply emits_raise |].
    apply emits_bind.
    + destruct (String.eqb (kind_code (kind f)) "u"); apply emits_io; discriminate.
    + intros _.
      replace (obj_eqb (size_obj (size f)) (OStr "1")) with false
        by (destruct (size f); reflexivity).
      apply emits_bind; [apply emits_io; discriminate | intros _].
      destruct (byteorder_is f ">"); apply emits_io; discriminate.
  - intros _. eapply emits_weaken; [| apply get_data_format_emits].
    intros e [-> | [-> | ->]]; discriminate.
Qed.

End FormatCommands.

(** C6: no descriptor makes [set_data_format] send [:WAV:FORM BYTE].
    Asked for a one-byte format ([<i1], also the default), the driver sends
    the signedness, then [:WAV:FORM WORD] and a byte order, and returns the
    re-queried format, which the instrument now reports as two bytes wide. *)
Theorem set_data_format_one_byte_sends_word :
  (forall (D : Type) (core : Core D) (self : IAgilentScope) (a : fmt_arg),
      emits (fun e => e <> EvWrite ":WAV:FORM BYTE" None None)
            (@set_data_format D core self a))
  /\ (let f := mkDataFormat (Some 1) KindInt (Some "<") in
      let r := set_data_format Sim.scope3 (FmtDesc f) (Sim.start Sim.bench) in
      log (snd r)
      = [EvWrite ":WAV:UNS" (Some (VBool false)) (Some "bool");
         EvWrite ":WAV:FORM WORD" None None;
         EvWrite ":WAV:BYT MSBF" None None;
         EvAsk ":WAV:FORM?" "string"; EvAsk "WAV:UNS?" "bool";
         EvAsk ":WAV:BYT?" "string"]
      /\ fst r = Ok (mkDataFormat (Some 2) KindInt (Some "<"))
      /\ set_data_format Sim.scope3 FmtDefault (Sim.start Sim.bench) = r).
Proof.
  split.
  - intros D core self a. apply set_data_format_never_byte.
  - repeat split; reflexivity.
Qed.

(** ** The preamble parser *)

Section PreambleParser.

Context {D : Type} {core : Core D}.



(** What a returned preamble tells about the reply: every key other than
    the format is the conversion of its field. *)
Lemma build_wfmpre_inv (data : list string) (w w' : world D) (p : wfmpre) :
  _build_wfmpre data w = (Ok p, w') ->
  exists c1,
    PyNum.int (field data 1) = Ok c1
    /\ PyNum.tuple_index type_table c1 = Ok (type p)
    /\ PyNum.int (field data 2) = Ok (pts p)
    /\ PyNum.int (field data 3) = Ok (count p)
    /\ PyNum.float (field data 4) = Ok (xincr p)
    /\ PyNum.float (field data 5) = Ok (xzero p)
    /\ PyNum.int (field data 6) = Ok (ptoff p)
    /\ PyNum.float (field data 7) = Ok (ymult p)
    /\ PyNum.float (field data 8) = Ok (yzero p)
    /\ PyNum.float (field data 9) = Ok (yoff p).
Proof.
  unfold _build_wfmpre.
  destruct (Z.of_nat (List.length data) <? 10); [discriminate |].
  unfold bind, lift, ret.
  destruct (PyNum.int (field data 0)) as [c0 |]; [| discriminate].
  destruct (PyNum.tuple_index fmt_table c0) as [form |]; [| discriminate].
  destruct (get_data_format (Some form) w) as [[f | e] w1]; [| discriminate].
  destruct (PyNum.int (field data 1)) as [c1 |] eqn:E1; [| discriminate].
  destruct (PyNum.tuple_index type_table c1) as [ty |] eqn:Et; [| discriminate].
  destruct (PyNum.int (field data 2)) as [n2 |] eqn:E2; [| discriminate].
  destruct (PyNum.int (field data 3)) as [n3 |] eqn:E3; [| discriminate].
  destruct (PyNum.float (field data 5)) as [x5 |] eqn:E5; [| discriminate].
  destruct (PyNum.float (field data 4)) as [x4 |] eqn:E4; [| discriminate].
  destruct (PyNum.int (field data 6)) as [n6 |] eqn:E6; [| discriminate].
  destruct (PyNum.float (field data 7)) as [x7 |] eqn:E7; [| discriminate].
  destruct (PyNum.float (field data 8)) as [x8 |] eqn:E8; [| discriminate].
  destruct (PyNum.float (field data 9)) as [x9 |] eqn:E9; [| discriminate].
  intros H. injection H as <- <-. exists c1. simpl. repeat split; assumption.
Qed.

(** On a reply of at least ten fields with a format code of the table, the
    parser takes its format from the lookup of the table entry. *)
Lemma build_wfmpre_format_from (data : list string) (c0 : Z) (form : string)
    (w : world D) :
  (10 <= List.length data)%nat ->
  PyNum.int (field data 0) = Ok c0 ->
  PyNum.tuple_index fmt_table c0 = Ok form ->
  format_from (get_data_format (Some form) w) (_build_wfmpre data w).
Proof.
  intros Hlen H0 Hf. unfold format_from.
  pose proof (eq_refl (_build_wfmpre data w)) as E.
  unfold _build_wfmpre at 2 in E.
  replace (Z.of_nat (List.length data) <? 10) with false in E
    by (symmetry; apply Z.ltb_ge; lia).
  rewrite (bind_lift_ok _ _ _ _ H0), (bind_lift_ok _ _ _ _ Hf) in E.
  unfold bind at 1 in E. revert E.
  destruct (get_data_format (Some form) w) as [[f | e] w1];
    [| intros E; exact E].
  intros ->. unfold bind, lift, ret.
  repeat match goal with
         | |- context [match ?x with Ok _ => _ | Raise _ => _ end] =>
             destruct x
         end;
    (split; [reflexivity | intros p Hp; cbn [fst] in Hp;
                           try discriminate Hp; now injection Hp as <-]).
Qed.

Lemma build_wfmpre_emits (data : list string) :
  emits is_format_query (@_build_wfmpre D core data).
Proof.
  unfold _build_wfmpre.
  destruct (Z.of_nat (List.length data) <? 10); [apply emits_raise |].
  apply emits_bind; [apply emits_lift | intros c0].
  apply emits_bind; [apply emits_lift | intros form].
  apply emits_bind; [apply get_data_format_emits | intros f].
  repeat emits_step.
Qed.

End PreambleParser.

Section Purity.

Context {D : Type} {core : Core D}.

Lemma pure_ret {A} (a : A) : is_pure (@ret D A a).
Proof. now exists (Ok a). Qed.

Lemma pure_raise {A} (e : exn) : is_pure (@raise D A e).
Proof. now exists (Raise e). Qed.

Lemma pure_lift {A} (r : result A) : is_pure (@lift D A r).
Proof. now exists r. Qed.

Lemma pure_bind {A B} (c : M D A) (k : A -> M D B) :
  is_pure c -> (forall a, is_pure (k a)) -> is_pure (bind c k).
Proof.
  intros [r Hr] Hk. destruct r as [a | e].
  - destruct (Hk a) as [r' Hr']. exists r'. intros w.
    unfold bind. now rewrite Hr, Hr'.
  - exists (Raise e). intros w. unfold bind. now rewrite Hr.
Qed.

Lemma get_data_format_ascii (w : world D) :
  get_data_format (Some "ASCII") w = (Ok (mkDataFormat None KindAscii None), w).
Proof. reflexivity. Qed.

(** With the ASCII format code the parser does no I/O at all. *)
Lemma build_wfmpre_ascii_pure (data : list string) (c0 : Z) :
  PyNum.int (field data 0) = Ok c0 ->
  PyNum.tuple_index fmt_table c0 = Ok "ASCII" ->
  is_pure (@_build_wfmpre D core data).
Proof.
  intros H0 Hf. unfold _build_wfmpre.
  destruct (Z.of_nat (List.length data) <? 10); [apply pure_raise |].
  match goal with
  | |- is_pure (bind _ (fun _ => bind _ (fun _ => bind _ ?k))) =>
      assert (Hk : forall f, is_pure (k f))
  end.
  { intros f. repeat (apply pure_bind; [apply pure_lift | intros ?]).
    apply pure_ret. }
  destruct (Hk (mkDataFormat None KindAscii None)) as [r Hr].
  exists r. intros w.
  rewrite (bind_lift_ok _ _ _ _ H0), (bind_lift_ok _ _ _ _ Hf).
  unfold bind at 1. rewrite get_data_format_ascii. apply Hr.
Qed.

End Purity.

Section PreambleTheorems.

Context {D : Type} {core : Core D}.


(** C7 as the code has it: the parser writes nothing and reads nothing
    back but the answers to the format queries of [get_data_format]; every
    key of the preamble other than the format is fixed by the reply alone;
    with the ASCII format code it does no I/O and its whole outcome is fixed
    by the reply.  With the code of BYTE or WORD it asks the signedness,
    then the byte order, nothing else, the first failure ending the parse,
    and the signedness and byte order of a returned preamble are the
    answers the device gave.  With the reserved code the form query comes
    first and its answer stands for the code: ASCII without a further
    query, anything else with the same two queries. *)
Theorem build_wfmpre_queries_only (data : list string) :
  emits is_format_query (@_build_wfmpre D core data)
  /\ (forall (w1 w2 w1' w2' : world D) (p1 p2 : wfmpre),
         _build_wfmpre data w1 = (Ok p1, w1') ->
         _build_wfmpre data w2 = (Ok p2, w2') ->
         scaling_fields p1 = scaling_fields p2)
  /\ (forall c0,
         PyNum.int (field data 0) = Ok c0 ->
         PyNum.tuple_index fmt_table c0 = Ok "ASCII" ->
         is_pure (@_build_wfmpre D core data))
  /\ (forall (c0 : Z) (form : string) (w : world D),
         (10 <= List.length data)%nat ->
         PyNum.int (field data 0) = Ok c0 ->
         PyNum.tuple_index fmt_table c0 = Ok form ->
         form = "BYTE" \/ form = "WORD" ->
         format_from
           (binary_format_answers (if String.eqb form "WORD" then 2 else 1) w)
           (_build_wfmpre data w))
  /\ (forall (c0 : Z) (w : world D),
         (10 <= List.length data)%nat ->
         PyNum.int (field data 0) = Ok c0 ->
         PyNum.tuple_index fmt_table c0 = Ok "" ->
         match dev_ask ":WAV:FORM?" (dev w) with
         | (Raise e, d1) =>
             _build_wfmpre data w
             = (Raise e, mkWorld d1 (log w ++ [EvAsk ":WAV:FORM?" "string"]))
         | (Ok reply, d1) =>
             let w1 := mkWorld d1 (log w ++ [EvAsk ":WAV:FORM?" "string"]) in
             format_from
               (if Py.startswith (Py.upper reply) "ASC"
                then (Ok (mkDataFormat None KindAscii None), w1)
                else binary_format_answers
                       (if Py.startswith (Py.upper reply) "WORD" then 2 else 1)
                       w1)
               (_build_wfmpre data w)
         end).
Proof.
  split; [apply build_wfmpre_emits | split; [| split; [| split]]].
  - intros w1 w2 w1' w2' p1 p2 Hp1 Hp2.
    apply build_wfmpre_inv in Hp1. apply build_wfmpre_inv in Hp2.
    destruct Hp1 as (c1 & A1 & At & A2 & A3 & A4 & A5 & A6 & A7 & A8 & A9).
    destruct Hp2 as (c1' & B1 & Bt & B2 & B3 & B4 & B5 & B6 & B7 & B8 & B9).
    unfold scaling_fields.
    assert (c1' = c1) by congruence. subst c1'.
    replace (type p2) with (type p1) by congruence.
    replace (pts p2) with (pts p1) by congruence.
    replace (count p2) with (count p1) by congruence.
    replace (xzero p2) with (xzero p1) by congruence.
    replace (xincr p2) with (xincr p1) by congruence.
    replace (ptoff p2) with (ptoff p1) by congruence.
    replace (ymult p2) with (ymult p1) by congruence.
    replace (yzero p2) with (yzero p1) by congruence.
    replace (yoff p2) with (yoff p1) by congruence.
    reflexivity.
  - intros c0 H0 Hf. now apply build_wfmpre_ascii_pure with (c0 := c0).
  - intros c0 form w Hlen H0 Hf Hform.
    replace (if String.eqb form "WORD" then 2 else 1)
      with (if Py.startswith form "WORD" then 2 else 1)
      by (destruct Hform as [-> | ->]; reflexivity).
    rewrite <- get_data_format_named
      by (destruct Hform as [-> | ->]; (discriminate || reflexivity)).
    now apply build_wfmpre_format_from with (c0 := c0).
  - intros c0 w Hlen H0 Hf.
    pose proof (build_wfmpre_format_from data c0 "" w Hlen H0 Hf) as H.
    rewrite get_data_format_reserved in H.
    destruct (dev_ask ":WAV:FORM?" (dev w)) as [[reply | e] d1]; exact H.
Qed.

End PreambleTheorems.



Lemma build_wfmpre_queries_only_witness :
  scaling_fields
    {| fmt := {| size := Some 2; kind := KindInt; byteorder := Some "<" |};
       type := "NORM"; pts := 1000; count := 1;
       xzero := 0; xincr := 1e-6; ptoff := -500;
       ymult := 0.01; yzero := 0; yoff := 0 |}
  = scaling_fields
      {| fmt := {| size := Some 2; kind := KindUInt; byteorder := Some "<" |};
         type := "NORM"; pts := 1000; count := 1;
         xzero := 0; xincr := 1e-6; ptoff := -500;
         ymult := 0.01; yzero := 0; yoff := 0 |}
  /\ is_pure (@_build_wfmpre _ Sim.core
                (Py.split ";" "3;0;1000;1;1e-6;0;-500;0.01;0;0"))
  /\ snd (_build_wfmpre
            ["1"; "0"; "1000"; "1"; "1e-6"; "0"; "-500"; "0.01"; "0"; "0"]
            (Sim.start Sim.bench))
     = mkWorld Sim.bench [EvAsk "WAV:UNS?" "bool"; EvAsk ":WAV:BYT?" "string"]
  /\ snd (_build_wfmpre
            ["2"; "0"; "1000"; "1"; "1e-6"; "0"; "-500"; "0.01"; "0"; "0"]
            (Sim.start Sim.bench))
     = mkWorld Sim.bench [EvAsk ":WAV:FORM?" "string"; EvAsk "WAV:UNS?" "bool";
                          EvAsk ":WAV:BYT?" "string"].
Proof.
  pose proof (build_wfmpre_queries_only (core := Sim.core)) as T.
  split; [| split; [| split]].
  - refine (proj1 (proj2 (T (Py.split ";" Sim.preamble_reply)))
              (Sim.start Sim.bench) (Sim.start SimCases.bench_unsigned)
              _ _ _ _ _ _); vm_compute; reflexivity.
  - refine (proj1 (proj2 (proj2
              (T (Py.split ";" "3;0;1000;1;1e-6;0;-500;0.01;0;0"))))
              3 _ _); vm_compute; reflexivity.
  - assert (Hlen : (10 <= List.length
               ["1"; "0"; "1000"; "1"; "1e-6"; "0"; "-500"; "0.01"; "0"; "0"])%nat)
      by (cbn; lia).
    exact (proj1 (proj1 (proj2 (proj2 (proj2 (T _)))) 1 "WORD"
                    (Sim.start Sim.bench) Hlen eq_refl eq_refl
                    (or_intror eq_refl))).
  - assert (Hlen : (10 <= List.length
               ["2"; "0"; "1000"; "1"; "1e-6"; "0"; "-500"; "0.01"; "0"; "0"])%nat)
      by (cbn; lia).
    exact (proj1 (proj2 (proj2 (proj2 (proj2 (T _)))) 2
                    (Sim.start Sim.bench) Hlen eq_refl eq_refl)).
Defined.

(** The claim of C7 fails as stated: on the same reply the parser returns
    different preambles for two states of the instrument, and it has queried
    the instrument. *)
Lemma build_wfmpre_depends_on_device :
  fst (_build_wfmpre (Py.split ";" Sim.preamble_reply) (Sim.start Sim.bench))
  <> fst (_build_wfmpre (Py.split ";" Sim.preamble_reply)
            (Sim.start SimCases.bench_unsigned))
  /\ log (snd (_build_wfmpre (Py.split ";" Sim.preamble_reply)
                 (Sim.start Sim.bench)))
     = [EvAsk "WAV:UNS?" "bool"; EvAsk ":WAV:BYT?" "string"].
Proof.
  split; [| reflexivity].
  vm_compute. intros H. inversion H.
Qed.

(** ** Scaling *)

Lemma wrap_int64_id (z : Z) : - 2 ^ 63 <= z < 2 ^ 63 -> wrap_int64 z = z.
Proof.
  intros H. unfold wrap_int64. rewrite Z.mod_small; lia.
Qed.

Lemma nth_map_seq {A} (g : nat -> A) (n i : nat) (d : A) :
  (i < n)%nat -> nth i (map g (seq 0 n)) d = g i.
Proof.
  intros H. rewrite (nth_indep _ d (g 0%nat)) by now rewrite length_map, length_seq.
  rewrite map_nth, seq_nth by assumption. reflexivity.
Qed.

Lemma nth_map_in {A B} (g : A -> B) (l : list A) (i : nat) (d : B) (a : A) :
  (i < List.length l)%nat -> nth i (map g l) d = g (nth i l a).
Proof.
  intros H. rewrite (nth_indep _ d (g a)) by now rewrite length_map.
  apply map_nth.
Qed.

Section Scaling.

Context {D : Type} {core : Core D}.
Variable self : IAgilentScope.

(** With a point offset numpy takes, scaling is the two columns zipped. *)
Lemma scale_data_fits (data : list sample) (p : wfmpre) (w : world D) :
  fits_int64 (ptoff p) = true ->
  _scale_data self data (Some p) w
  = (Ok (combine
           (map (fun i => (float_of_Z (wrap_int64 (Z.of_nat i - ptoff p))
                           * xincr p + xzero p)%float)
                (seq 0 (List.length data)))
           (if is_ascii (fmt p) then map sample_float data
            else map (fun x => ((sample_float x - yoff p) * ymult p
                                + yzero p)%float) data)), w).
Proof.
  intros H. unfold _scale_data. rewrite bind_ret_l, H. reflexivity.
Qed.

Lemma scale_data_overflow (data : list sample) (p : wfmpre) (w : world D) :
  fits_int64 (ptoff p) = false ->
  _scale_data self data (Some p) w = (Raise OverflowError, w).
Proof.
  intros H. unfold _scale_data. rewrite bind_ret_l, H. reflexivity.
Qed.

(** C1: with a preamble whose point offset is an int64, scaling does no I/O
    and returns one row per element; row [i] has
    [x = (i - ptoff) * xincr + xzero] whenever [i - ptoff] is within int64
    (in general the difference wrapped to int64) and, for a binary format,
    [y = (raw - yoff) * ymult + yzero], for ASCII [y = float(raw)].  A point
    offset outside int64 raises OverflowError.  For the samples 100, 150,
    200 of a binary format with ptoff=0, xincr=2e-9, xzero=0, ymult=0.02,
    yzero=0, yoff=128 the rows are (0, -0.56), (2e-9, 0.44),
    (4e-9, 1.44). *)
Theorem scale_data_affine (data : list sample) (p : wfmpre) (w : world D) :
  (fits_int64 (ptoff p) = true ->
   exists wf,
     _scale_data self data (Some p) w = (Ok wf, w)
     /\ List.length wf = List.length data
     /\ forall i, (i < List.length data)%nat ->
          (- 2 ^ 63 <= Z.of_nat i - ptoff p < 2 ^ 63 ->
           fst (nth i wf (0, 0)%float)
           = (float_of_Z (Z.of_nat i - ptoff p) * xincr p + xzero p)%float)
          /\ fst (nth i wf (0, 0)%float)
             = (float_of_Z (wrap_int64 (Z.of_nat i - ptoff p)) * xincr p
                + xzero p)%float
          /\ snd (nth i wf (0, 0)%float)
             = if is_ascii (fmt p) then sample_float (nth i data (SInt 0))
               else ((sample_float (nth i data (SInt 0)) - yoff p) * ymult p
                     + yzero p)%float)
  /\ (fits_int64 (ptoff p) = false ->
      _scale_data self data (Some p) w = (Raise OverflowError, w))
  /\ (forall (f : DataFormat) (ty : string) (n c : Z),
         is_ascii f = false ->
         _scale_data self [SInt 100; SInt 150; SInt 200]
           (Some {| fmt := f; type := ty; pts := n; count := c;
                    xzero := 0; xincr := 2e-9; ptoff := 0;
                    ymult := 0.02; yzero := 0; yoff := 128 |}) w
         = (Ok [(0, -0.56); (2e-9, 0.44); (4e-9, 1.44)]%float, w)).
Proof.
  split; [| split].
  - intros Hfit. eexists. split; [now apply scale_data_fits |]. split.
    + rewrite length_combine, length_map, length_seq.
      destruct (is_ascii (fmt p)); rewrite length_map; apply Nat.min_id.
    + intros i Hi.
      rewrite combine_nth
        by (rewrite length_map, length_seq;
            destruct (is_ascii (fmt p)); now rewrite length_map).
      cbn [fst snd]. rewrite nth_map_seq by assumption.
      split; [| split].
      * intros Hr. now rewrite wrap_int64_id.
      * reflexivity.
      * destruct (is_ascii (fmt p));
          now rewrite (nth_map_in _ _ _ _ (SInt 0)) by assumption.
  - apply scale_data_overflow.
  - intros f ty n c Hf. rewrite scale_data_fits by reflexivity.
    cbn [fmt xzero xincr ptoff ymult yzero yoff].
    rewrite Hf. vm_compute. reflexivity.
Qed.

End Scaling.

Lemma scale_data_affine_witness :
  (exists wf,
      _scale_data Sim.scope3 [SInt 100; SInt 150; SInt 200]
        (Some (SimCases.example_wfmpre 3)) (Sim.start Sim.bench)
      = (Ok wf, Sim.start Sim.bench)
      /\ List.length wf = 3%nat)
  /\ fst (_scale_data Sim.scope3 [SInt 100; SInt 150; SInt 200]
            (Some (SimCases.example_wfmpre 3)) (Sim.start Sim.bench))
     = Ok [(0, -0.56); (2e-9, 0.44); (4e-9, 1.44)]%float.
Proof.
  pose proof (scale_data_affine Sim.scope3 [SInt 100; SInt 150; SInt 200]
                (SimCases.example_wfmpre 3) (Sim.start Sim.bench)) as T.
  split.
  - destruct (proj1 T eq_refl) as (wf & H1 & H2 & _).
    exists wf. split; assumption.
  - unfold SimCases.example_wfmpre.
    rewrite (proj2 (proj2 T) SimCases.example_format "NORM" 3 1); reflexivity.
Defined.

(** The claim of C1 fails as stated: the index arithmetic is numpy's int64.
    With the point offset -(2^63 - 2) the difference for row 2 is 2^63, which
    wraps to -2^63: the x value of that row is negative where the claimed
    formula is positive; and the point offset 2^63 gives no waveform at
    all. *)
Lemma scale_data_index_wraps :
  (exists wf,
      fst (_scale_data Sim.scope3 [SInt 100; SInt 150; SInt 200]
             (Some (SimCases.offset_wfmpre (- (2 ^ 63 - 2))))
             (Sim.start Sim.bench)) = Ok wf
      /\ (fst (nth 2 wf (0, 0)%float) <? 0)%float = true
      /\ (0 <? float_of_Z (2 - - (2 ^ 63 - 2)) * 2e-9 + 0)%float = true
      /\ (fst (nth 2 wf (0, 0)%float)
          =? float_of_Z (2 - - (2 ^ 63 - 2)) * 2e-9 + 0)%float = false)
  /\ fst (_scale_data Sim.scope3 [SInt 100; SInt 150; SInt 200]
            (Some (SimCases.offset_wfmpre (2 ^ 63))) (Sim.start Sim.bench))
     = Raise OverflowError.
Proof.
  split; [| vm_compute; reflexivity].
  eexists. split; [vm_compute; reflexivity |].
  repeat split; vm_compute; reflexivity.
Qed.

(** ** Reading a sweep *)

Section Sweep.

Context {D : Type} {core : Core D}.
Variable self : IAgilentScope.

(** The check and the scaling that follow the decoding. *)
Lemma read_sweep_fast_factor (channel : value) (pre : option wfmpre)
    (w : world D) :
  _read_sweep_fast self channel pre w
  = bind (decoded_trace self channel pre)
      (fun pt =>
         if negb (Z.of_nat (List.length (snd pt)) =? pts (fst pt)) then
           raise (length_error (Z.of_nat (List.length (snd pt))) (pts (fst pt)))
         else _scale_data self (snd pt) (Some (fst pt))) w.
Proof.
  unfold _read_sweep_fast, decoded_trace, use_parameters.
  rewrite bind_assoc. apply bind_ext. intros ch w1.
  rewrite bind_assoc. apply bind_ext. intros _ w2.
  rewrite bind_assoc. apply bind_ext. intros p w3.
  rewrite bind_assoc. apply bind_ext. intros _ w4.
  rewrite bind_assoc.
  destruct (is_ascii (fmt p)).
  - rewrite bind_assoc. apply bind_ext. intros data w5.
    rewrite bind_ret_l, bind_assoc. apply bind_ext. intros trace w6.
    rewrite bind_ret_l. reflexivity.
  - rewrite bind_assoc. apply bind_ext. intros data w5.
    rewrite bind_ret_l, bind_assoc. apply bind_ext. intros trace w6.
    rewrite bind_ret_l. reflexivity.
Qed.

Lemma scale_data_length (trace : list sample) (p : wfmpre) (w : world D) :
  fits_int64 (ptoff p) = true ->
  exists wf, _scale_data self trace (Some p) w = (Ok wf, w)
             /\ List.length wf = List.length trace.
Proof.
  intros Hfit. eexists. split; [now apply scale_data_fits |].
  rewrite length_combine, length_map, length_seq.
  destruct (is_ascii (fmt p)); rewrite length_map; apply Nat.min_id.
Qed.

(** Scaling with a preamble returns on the world it ran in, one row per
    element, and only for a point offset within int64. *)
Lemma scale_data_rows (trace : list sample) (p : wfmpre) (w w' : world D)
    (wf : waveform) :
  _scale_data self trace (Some p) w = (Ok wf, w') ->
  w' = w /\ List.length wf = List.length trace /\ fits_int64 (ptoff p) = true.
Proof.
  intros H. destruct (fits_int64 (ptoff p)) eqn:Hfit.
  - destruct (scale_data_length trace p w Hfit) as (wf' & Hs & Hl).
    rewrite Hs in H. injection H as <- <-. auto.
  - rewrite scale_data_overflow in H by assumption. discriminate H.
Qed.

(** A preamble handed in is the one the read uses. *)
Lemma decoded_trace_given (channel : value) (p0 p : wfmpre)
    (trace : list sample) (w w1 : world D) :
  decoded_trace self channel (Some p0) w = (Ok (p, trace), w1) -> p = p0.
Proof.
  unfold decoded_trace, bind, lift, ret.
  destruct (param_direct (p_input_channel self) channel); [| discriminate].
  destruct (write _ None None w) as [[[] | ?] ?]; [| discriminate].
  destruct (write "WAV:DATA?" None None _) as [[[] | ?] ?]; [| discriminate].
  destruct (is_ascii (fmt p0)).
  - destruct (read_raw _) as [[? | ?] ?]; [| discriminate].
    destruct (parse_array_data _ _ _); [| discriminate]. congruence.
  - destruct (read_binary_array_data _) as [[? | ?] ?]; [| discriminate].
    destruct (parse_array_data _ _ _); [| discriminate]. congruence.
Qed.

(** C4: once the transfer is decoded, a length different from the
    preamble's point count makes the read raise the driver's error naming
    both lengths; with equal lengths it returns the scaling of the whole
    trace, one row per point; a failure before that propagates.  A read
    that returns a waveform has decoded exactly [pts] elements and returns
    as many rows.  (With equal lengths and a point offset that is no int64
    the scaling raises numpy's OverflowError, and so does the read.) *)
Theorem read_sweep_length_checked (channel : value) (pre : option wfmpre)
    (w : world D) :
  match decoded_trace self channel pre w with
  | (Ok (p, trace), w1) =>
      if Z.of_nat (List.length trace) =? pts p then
        if fits_int64 (ptoff p) then
          exists wf,
            _read_sweep_fast self channel pre w = (Ok wf, w1)
            /\ _scale_data self trace (Some p) w1 = (Ok wf, w1)
            /\ Z.of_nat (List.length wf) = pts p
        else
          _read_sweep_fast self channel pre w = (Raise OverflowError, w1)
      else
        _read_sweep_fast self channel pre w
        = (Raise (AgilentError
             ("received data length " ++ Py.str_of_int (Z.of_nat (List.length trace))
              ++ " is not equal to the number of points " ++ Py.str_of_int (pts p))),
           w1)
  | (Raise e, w1) => _read_sweep_fast self channel pre w = (Raise e, w1)
  end
  /\ (forall wf w',
         _read_sweep_fast self channel pre w = (Ok wf, w') ->
         exists p trace,
           decoded_trace self channel pre w = (Ok (p, trace), w')
           /\ Z.of_nat (List.length trace) = pts p
           /\ List.length wf = List.length trace
           /\ (forall p0, pre = Some p0 -> p = p0)).
Proof.
  split.
  - rewrite read_sweep_fast_factor. unfold bind.
    destruct (decoded_trace self channel pre w) as [[[p trace] | e] w1];
      [| reflexivity].
    cbn [fst snd].
    destruct (Z.of_nat (List.length trace) =? pts p) eqn:E; cbn [negb].
    + destruct (fits_int64 (ptoff p)) eqn:Hfit.
      * destruct (scale_data_length trace p w1 Hfit) as (wf & Hs & Hl).
        exists wf. repeat split; try assumption.
        apply Z.eqb_eq in E. now rewrite Hl.
      * now apply scale_data_overflow.
    + reflexivity.
  - intros wf w' H. rewrite read_sweep_fast_factor in H. unfold bind in H.
    destruct (decoded_trace self channel pre w) as [[[p trace] | e] w1] eqn:Ed;
      [| discriminate].
    cbn [fst snd] in H.
    destruct (Z.of_nat (List.length trace) =? pts p) eqn:E; cbn [negb] in H;
      [| discriminate].
    apply scale_data_rows in H. destruct H as (-> & Hl & _).
    exists p, trace. repeat split; try assumption.
    + now apply Z.eqb_eq.
    + intros p0 ->. eapply decoded_trace_given; eassumption.
Qed.

End Sweep.

(** A transfer of the three bytes 100, 150, 200 read with a three-point
    preamble: the rows of the affine example. *)
Example read_sweep_three_points :
  fst (_read_sweep_fast Sim.scope3 (VInt 1) (Some (SimCases.example_wfmpre 3))
         (Sim.start (SimCases.with_payload
            (String (ascii_of_nat 100) (String (ascii_of_nat 150)
               (String (ascii_of_nat 200) EmptyString))) Sim.bench)))
  = Ok [(0, -0.56); (2e-9, 0.44); (4e-9, 1.44)]%float.
Proof. vm_compute. reflexivity. Qed.

(** The instrument announces 1000 points and transfers 900 two-byte
    elements: the read raises, naming both numbers. *)
Lemma read_sweep_length_checked_witness :
  fst (_read_sweep_fast Sim.scope3 (VInt 1) None
         (Sim.start (SimCases.with_payload (SimCases.bytes 1800) Sim.bench)))
  = Raise (AgilentError
      "received data length 900 is not equal to the number of points 1000").
Proof.
  pose proof (proj1 (read_sweep_length_checked Sim.scope3 (VInt 1) None
    (Sim.start (SimCases.with_payload (SimCases.bytes 1800) Sim.bench)))) as T.
  remember (decoded_trace Sim.scope3 (VInt 1) None
    (Sim.start (SimCases.with_payload (SimCases.bytes 1800) Sim.bench))) as dt eqn:Edt.
  vm_compute in Edt. subst dt. cbv iota beta in T.
  match type of T with
  | (if ?c then _ else _) => replace c with false in T by (vm_compute; reflexivity)
  end.
  rewrite T. vm_compute. reflexivity.
Defined.

(** ** The multiplexer *)

Section MuxTheorems.

Context {D : Type} {core : Core D}.

Lemma special_lookup_all {B} (f : B) :
  special_lookup [("all", f)] (VStr "all") = Some f.
Proof. reflexivity. Qed.

Lemma special_lookup_not_all {B} (f : B) (c : value) :
  c <> VStr "all" -> special_lookup [("all", f)] c = None.
Proof.
  intros H. destruct c as [b | z | x | s]; try reflexivity.
  unfold special_lookup, find. cbn [fst snd].
  destruct (String.eqb "all" s) eqn:E; [| reflexivity].
  apply String.eqb_eq in E. subst s. congruence.
Qed.

(** On one channel id the multiplexer makes the plain call. *)
Lemma mux_one {A} (rk : option return_kind) (func : value -> M D A)
    (self : IAgilentScope) (c : value) (w : world D) :
  c <> VStr "all" ->
  muxchannel rk func self (One c) w = fmap MuxScalar (func c) w.
Proof.
  intros H. unfold muxchannel, muxcall.
  now rewrite special_lookup_not_all.
Qed.





End MuxTheorems.

(** On the bench, the vertical spans over ["all"]: one result per main
    channel, in channel order. *)
Example get_vertical_span_all :
  fst (get_vertical_span Sim.scope3 (One (VStr "all")) (Sim.start Sim.bench))
  = Ok (MuxList [Ok 5; Ok 10; Ok 20]%float).
Proof. reflexivity. Qed.

(** ** Setters return the re-queried value *)

Section Setters.

Context {D : Type} {core : Core D}.
Variable self : IAgilentScope.




End Setters.



(** ** Setters over several channels *)

Section SettersEachChannel.

Context {D : Type} {core : Core D}.
Variable self : IAgilentScope.

Lemma mux_over_ext {A} (allow_partial : bool) (f g : value -> M D A)
    (cs : list value) (w : world D) :
  (forall c w', f c w' = g c w') ->
  mux_over allow_partial f cs w = mux_over allow_partial g cs w.
Proof.
  intros H. revert w. induction cs as [| c cs IH]; intros w; [reflexivity |].
  cbn [mux_over]. unfold bind at 1 3.
  destruct allow_partial.
  - unfold try_. rewrite H. destruct (g c w) as [r w1].
    unfold bind. rewrite IH. reflexivity.
  - unfold fmap, bind at 1 3. rewrite H. destruct (g c w) as [[a | e] w1];
      [| reflexivity].
    unfold ret, bind. rewrite IH. reflexivity.
Qed.

Lemma muxchannel_ext {A} (rk : option return_kind) (f g : value -> M D A)
    (arg : chan_arg) (w : world D) :
  (forall c w', f c w' = g c w') ->
  muxchannel rk f self arg w = muxchannel rk g self arg w.
Proof.
  intros H. unfold muxchannel, muxcall.
  destruct arg as [c | cs].
  - destruct (special_lookup _ c) as [expand |].
    + unfold bind. now rewrite (mux_over_ext _ f g).
    + unfold fmap, bind. now rewrite H.
  - unfold bind. now rewrite (mux_over_ext _ f g).
Qed.

(** A converted channel, a write and the getter's body are the write on
    that channel followed by the getter on that channel. *)
Lemma use_parameters_split {A} (cls : EnumParameterClass)
    (wr : string -> M D unit) (g : string -> M D A) (c : value) (w : world D) :
  use_parameters cls (fun ch => wr ch ;; g ch) c w
  = (use_parameters cls wr c ;; use_parameters cls g c) w.
Proof.
  unfold use_parameters, bind, lift.
  destruct (param_direct cls c) as [ch | e]; [| reflexivity].
  destruct (wr ch w) as [[[] | e] w1]; reflexivity.
Qed.

(** Whatever the channel argument (one id, a list, ["all"]), a multiplexed
    setter makes for each channel the write followed by the single-channel
    getter, and collects what the getters return. *)
Lemma setters_requery_each_channel (arg : chan_arg) (w : world D) :
  (forall span,
      set_vertical_span self arg span w
      = muxchannel None (fun c =>
          use_parameters (p_input_channel self) (fun ch =>
            write (":" ++ ch ++ ":SCAL") (Some (VFloat (span / 10))) (Some "float")) c ;;
          use_parameters (p_input_channel self) wip_get_vertical_span c)
          self arg w)
  /\ (forall position,
      set_vertical_position self arg position w
      = muxchannel None (fun c =>
          use_parameters (p_input_channel self) (fun ch =>
            write (":" ++ ch ++ "::OFFS") (Some (VFloat position)) (Some "float")) c ;;
          use_parameters (p_input_channel self) wip_get_vertical_position c)
          self arg w)
  /\ (forall enabled,
      enable_channel self arg enabled w
      = muxchannel None (fun c =>
          use_parameters (p_input_channel self) (fun ch =>
            write (":" ++ ch ++ ":DISP") (Some (VBool enabled)) (Some "bool")) c ;;
          use_parameters (p_input_channel self) wip_is_channel_enabled c)
          self arg w).
Proof.
  repeat split; intros; apply muxchannel_ext; intros;
    apply use_parameters_split.
Qed.

End SettersEachChannel.

(** * Further properties *)

(** ** Inverting a run *)

Section Inversion.

Context {D : Type}.

Lemma bind_inv {A B} (c : M D A) (k : A -> M D B) (w w' : world D) (b : B) :
  bind c k w = (Ok b, w') ->
  exists a w1, c w = (Ok a, w1) /\ k a w1 = (Ok b, w').
Proof.
  unfold bind. destruct (c w) as [[a | e] w1]; [| discriminate].
  intros H. now exists a, w1.
Qed.

Lemma io_inv {A} (ev : event) (f : D -> result A * D) (w w' : world D) (a : A) :
  io ev f w = (Ok a, w') ->
  f (dev w) = (Ok a, dev w') /\ log w' = (log w ++ [ev])%list.
Proof.
  unfold io. destruct (f (dev w)) as [r d'] eqn:E. intros H.
  injection H as -> <-. simpl. auto.
Qed.

Lemma lift_inv {A} (r : result A) (w w' : world D) (a : A) :
  lift r w = (Ok a, w') -> r = Ok a /\ w' = w.
Proof. unfold lift. intros H. injection H as -> ->. auto. Qed.

Lemma ret_inv {A} (x a : A) (w w' : world D) :
  ret x w = (Ok a, w') -> x = a /\ w' = w.
Proof. unfold ret. intros H. injection H as -> ->. auto. Qed.

End Inversion.

Lemma bind_step {D A B : Type} (c : M D A) (k : A -> M D B) (w w1 : world D) (a : A) :
  c w = (Ok a, w1) -> bind c k w = k a w1.
Proof. intros H. unfold bind. now rewrite H. Qed.

(** ** Channel detection *)

Section Detection.

Context {D : Type} {core : Core D} {ext : CoreExt D}.





End Detection.


(** ** Number of points *)

Section Points.

Context {D : Type} {core : Core D} {ext : CoreExt D}.

Lemma check_kind_known (kind : string) :
  In kind ["acq"; "trace"; "send"] ->
  check_parameter_range kind "kind" ["acq"; "trace"; "send"] = Ok tt.
Proof.
  intros [<- | [<- | [<- | []]]]; reflexivity.
Qed.

Lemma check_kind_unknown (kind : string) :
  ~ In kind ["acq"; "trace"; "send"] ->
  exists msg,
    check_parameter_range kind "kind" ["acq"; "trace"; "send"]
    = Raise (ValueError msg).
Proof.
  intros H. unfold check_parameter_range.
  destruct (existsb (String.eqb kind) ["acq"; "trace"; "send"]) eqn:E.
  - apply existsb_exists in E. destruct E as (x & Hx & Hk).
    apply String.eqb_eq in Hk. subst x. contradiction.
  - eexists. reflexivity.
Qed.

(** X2: [get_points_number] checks its [kind] first: a kind other than
    acq, trace, send raises a ValueError with the device untouched; for the
    three kinds it makes one and the same query, whatever the kind. *)
Theorem get_points_number_kind (kind : string) (w : world D) :
  (In kind ["acq"; "trace"; "send"] ->
   get_points_number kind w = ask_int ":WAV:POIN?" w)
  /\ (~ In kind ["acq"; "trace"; "send"] ->
      exists msg, get_points_number kind w = (Raise (ValueError msg), w)).
Proof.
  split; intros H; unfold get_points_number.
  - rewrite (bind_lift_ok _ tt) by now apply check_kind_known. reflexivity.
  - destruct (check_kind_unknown kind H) as [msg Hm].
    exists msg. now apply bind_lift_raise.
Qed.

Lemma max_of_swap (a b : Z) : max_of a [b] = max_of b [a].
Proof. unfold max_of. cbn. apply Z.max_comm. Qed.

(** X3: [set_data_pts_range] uses only the maximum of the range it is
    given: ranges with the same maximum, such as a pair and its swap, have
    the same outcome; the range it returns always starts at 1; an empty
    range raises a ValueError with the device untouched. *)
Theorem set_data_pts_range_uses_max (w : world D) :
  (forall x l y l',
      max_of x l = max_of y l' ->
      set_data_pts_range (Some (x :: l)) w = set_data_pts_range (Some (y :: l')) w)
  /\ (forall a b,
      set_data_pts_range (Some [a; b]) w = set_data_pts_range (Some [b; a]) w)
  /\ (forall rng r w', set_data_pts_range rng w = (Ok r, w') -> fst r = 1)
  /\ (exists msg, set_data_pts_range (Some []) w = (Raise (ValueError msg), w)).
Proof.
  split; [| split; [| split]].
  - intros x l y l' H. unfold set_data_pts_range. now rewrite !bind_ret_l, H.
  - intros a b. unfold set_data_pts_range.
    now rewrite !bind_ret_l, (max_of_swap a b).
  - intros rng r w' H. unfold set_data_pts_range in H.
    apply bind_inv in H. destruct H as (stop & w1 & _ & H).
    apply bind_inv in H. destruct H as (n & w2 & _ & H).
    unfold get_data_pts_range in H.
    apply bind_inv in H. destruct H as (m & w3 & _ & H).
    apply ret_inv in H. destruct H as [<- _]. reflexivity.
  - eexists. reflexivity.
Qed.

(** X4: a call of [set_points_number] that returns has sent four messages
    in this order: the points mode (the token for NORM up to 1000 points,
    for MAX above), the query of the mode, the number of points as an
    integer, and the query of the number, whose answer it returns. *)
Theorem set_points_number_trace (n : Z) (reset_limits : bool)
    (w w' : world D) (r : Z) :
  set_points_number n reset_limits w = (Ok r, w') ->
  exists mode d3,
    param_direct _p_points_mode (VStr (if n <=? 1000 then "NORM" else "MAX"))
    = Ok mode
    /\ log w' = (log w ++
                 [EvWrite ":WAV:POIN:MODE" (Some (VStr mode)) None;
                  EvAsk ":WAV:POIN:MODE?" "string";
                  EvWrite ":WAV:POIN" (Some (VInt n)) (Some "int");
                  EvAsk ":WAV:POIN?" "int"])%list
    /\ dev_ask_int ":WAV:POIN?" d3 = (Ok r, dev w').
Proof.
  intros H. unfold set_points_number in H.
  apply bind_inv in H. destruct H as (s & w1 & Hres & H).
  apply bind_inv in H. destruct H as ([] & w2 & Hwr & H).
  unfold get_points_number in H.
  apply bind_inv in H. destruct H as ([] & w3 & Hk & H).
  apply lift_inv in Hk. destruct Hk as [_ ->].
  assert (Hmode : exists mode,
             param_direct _p_points_mode
               (VStr (if n <=? 1000 then "NORM" else "MAX")) = Ok mode
             /\ log w1 = (log w ++ [EvWrite ":WAV:POIN:MODE" (Some (VStr mode)) None;
                                    EvAsk ":WAV:POIN:MODE?" "string"])%list).
  { destruct (n <=? 1000);
      unfold _set_data_resolution, use_parameters in Hres;
      apply bind_inv in Hres; destruct Hres as (mode & wa & Hc & Hres);
      apply lift_inv in Hc; destruct Hc as [Hc ->];
      apply bind_inv in Hres; destruct Hres as ([] & wb & Hw & Hq);
      apply io_inv in Hw; destruct Hw as [_ Hw];
      apply io_inv in Hq; destruct Hq as [_ Hq];
      exists mode; (split; [assumption |]);
      now rewrite Hq, Hw, <- app_assoc. }
  destruct Hmode as (mode & Hm & Hl1).
  apply io_inv in Hwr. destruct Hwr as [_ Hl2].
  apply io_inv in H. destruct H as [Hask Hl3].
  exists mode, (dev w2). split; [assumption |]. split; [| assumption].
  rewrite Hl3, Hl2, Hl1, <- !app_assoc. reflexivity.
Qed.

End Points.

Lemma get_points_number_kind_witness :
  get_points_number "send" (Sim.start SimMore.bench4)
  = ask_int ":WAV:POIN?" (Sim.start SimMore.bench4)
  /\ exists msg,
       get_points_number "all" (Sim.start SimMore.bench4)
       = (Raise (ValueError msg), Sim.start SimMore.bench4).
Proof.
  split.
  - apply (proj1 (get_points_number_kind "send" (Sim.start SimMore.bench4))).
    right. right. left. reflexivity.
  - apply (proj2 (get_points_number_kind "all" (Sim.start SimMore.bench4))).
    intros [H | [H | [H | []]]]; discriminate.
Defined.

Lemma set_data_pts_range_uses_max_witness :
  set_data_pts_range (core := SimMore.core_tokens) (Some [1; 800])
    (Sim.start SimMore.bench4)
  = set_data_pts_range (core := SimMore.core_tokens) (Some [800; 30])
      (Sim.start SimMore.bench4)
  /\ fst (set_data_pts_range (core := SimMore.core_tokens) (Some [200; 800])
            (Sim.start SimMore.bench4))
     = Ok (1, 800).
Proof.
  pose proof (set_data_pts_range_uses_max (core := SimMore.core_tokens)
                (Sim.start SimMore.bench4)) as T.
  split.
  - apply (proj1 T). reflexivity.
  - vm_compute. reflexivity.
Defined.

Lemma set_points_number_trace_witness :
  exists mode,
    fst (set_points_number (core := SimMore.core_tokens) 5000 true
           (Sim.start SimMore.bench4)) = Ok 5000
    /\ param_direct (Core := SimMore.core_tokens) _p_points_mode (VStr "MAX")
       = Ok mode.
Proof.
  assert (H : exists w',
             set_points_number (core := SimMore.core_tokens) 5000 true
               (Sim.start SimMore.bench4) = (Ok 5000, w'))
    by (eexists; vm_compute; reflexivity).
  destruct H as [w' H].
  destruct (set_points_number_trace (core := SimMore.core_tokens)
              5000 true _ _ _ H) as (mode & d3 & Hm & _).
  exists mode. split; [now rewrite H | exact Hm].
Defined.

(** ** The reported format *)

Section ReportedFormat.

Context {D : Type} {core : Core D}.
Variable self : IAgilentScope.

(** X5: a format reported by [get_data_format] is either ASCII without size
    and byte order, or has size 1 or 2, a signed or unsigned integer kind
    and byte order [>] or [<]; so it passes the check of [set_data_format],
    and on a given form name the size is 2 exactly for a name starting with
    WORD. *)
Theorem get_data_format_well_formed (form : option string)
    (w w' : world D) (f : DataFormat) :
  get_data_format form w = (Ok f, w') ->
  (f = mkDataFormat None KindAscii None
   \/ exists s k b,
        f = mkDataFormat (Some s) k (Some b)
        /\ (s = 1 \/ s = 2) /\ (k = KindInt \/ k = KindUInt)
        /\ (b = ">" \/ b = "<"))
  /\ (is_ascii f = true
      \/ negb (str_in (kind_code (kind f)) "iu") || negb (size_in_1_2 (size f))
         = false)
  /\ (forall name, form = Some name -> name <> "" -> is_ascii f = false ->
      size f = Some (if Py.startswith name "WORD" then 2 else 1)).
Proof.
  intros H. unfold get_data_format in H.
  apply bind_inv in H. destruct H as (fm & w1 & Hfm & H).
  destruct (Py.startswith fm "ASC") eqn:Easc.
  - apply ret_inv in H. destruct H as [<- _].
    split; [now left |]. split; [now left |].
    intros name _ _ Hd. discriminate Hd.
  - apply bind_inv in H. destruct H as (uns & w2 & _ & H).
    apply bind_inv in H. destruct H as (border & w3 & _ & H).
    apply ret_inv in H. destruct H as [<- _].
    split; [| split].
    + right. eexists _, _, _. split; [reflexivity |]. repeat split.
      * destruct (Py.startswith fm "WORD"); auto.
      * destruct uns; auto.
      * destruct (String.eqb (Py.upper border) "LSBF"); auto.
    + right. cbn [kind size]. destruct uns, (Py.startswith fm "WORD"); reflexivity.
    + intros name -> Hne _. cbn [size].
      destruct name as [| c name']; [congruence |].
      apply ret_inv in Hfm. destruct Hfm as [<- _]. reflexivity.
Qed.

End ReportedFormat.

Lemma get_data_format_well_formed_witness :
  fst (get_data_format None (Sim.start Sim.bench))
  = Ok (mkDataFormat (Some 1) KindInt (Some "<"))
  /\ (mkDataFormat (Some 1) KindInt (Some "<") = mkDataFormat None KindAscii None
      \/ exists s k b,
           mkDataFormat (Some 1) KindInt (Some "<") = mkDataFormat (Some s) k (Some b)
           /\ (s = 1 \/ s = 2) /\ (k = KindInt \/ k = KindUInt)
           /\ (b = ">" \/ b = "<")).
Proof.
  assert (H : exists w',
             get_data_format None (Sim.start Sim.bench)
             = (Ok (mkDataFormat (Some 1) KindInt (Some "<")), w'))
    by (eexists; vm_compute; reflexivity).
  destruct H as [w' H]. split; [now rewrite H |].
  exact (proj1 (get_data_format_well_formed None _ _ _ H)).
Defined.

(** ** Format round trip on the register-file instrument *)

Section RegisterFile.

Import Sim.

Lemma lookup_store_same (h : string) (v : value) (r : list (string * value)) :
  lookup h (store h v r) = Some v.
Proof.
  induction r as [| [k x] r IH]; cbn [store lookup].
  - now rewrite String.eqb_refl.
  - destruct (String.eqb k h) eqn:E; cbn [lookup]; rewrite E; auto.
Qed.

Lemma lookup_store_other (h k : string) (v : value) (r : list (string * value)) :
  String.eqb k h = false ->
  lookup h (store k v r) = lookup h r.
Proof.
  intros Hk. induction r as [| [k' x] r IH]; cbn [store lookup].
  - now rewrite Hk.
  - destruct (String.eqb k' k) eqn:E; cbn [lookup].
    + apply String.eqb_eq in E. subst k'. now rewrite Hk.
    + destruct (String.eqb k' h); auto.
Qed.

Lemma sim_write_step (msg : string) (arg : option value) (ty : option string)
    (r : list (string * value)) (p : string) (l : list event) :
  write msg arg ty (mkWorld (mkDevice r p) l)
  = (Ok tt,
     mkWorld (mkDevice (store (fst (header msg))
                          (coerce (fst (header msg)) (SimMore.written arg (snd (header msg)))) r) p)
             (l ++ [EvWrite msg arg ty])).
Proof.
  unfold write, io. cbn [dev log dev_write core]. unfold sim_write.
  destruct (header msg) as [h inline]. reflexivity.
Qed.

Lemma sim_ask_text (msg s : string) (r : list (string * value)) (p : string)
    (l : list event) :
  lookup (fst (header msg)) r = Some (VStr s) ->
  ask msg (mkWorld (mkDevice r p) l)
  = (Ok s, mkWorld (mkDevice r p) (l ++ [EvAsk msg "string"])).
Proof.
  intros H. unfold ask, io. cbn [dev log dev_ask core]. unfold sim_ask.
  cbn [regs]. now rewrite H.
Qed.

Lemma sim_ask_bool_flag (msg : string) (b : bool) (r : list (string * value))
    (p : string) (l : list event) :
  lookup (fst (header msg)) r = Some (VBool b) ->
  ask_bool msg (mkWorld (mkDevice r p) l)
  = (Ok b, mkWorld (mkDevice r p) (l ++ [EvAsk msg "bool"])).
Proof.
  intros H. unfold ask_bool, io. cbn [dev log dev_ask_bool core].
  unfold sim_ask_bool. cbn [regs]. now rewrite H.
Qed.

(** What [get_data_format] reads from registers in word mode. *)
Lemma sim_get_data_format_word (r : list (string * value)) (p : string)
    (l : list event) (u : bool) (x : string) :
  lookup "WAV:FORM" r = Some (VStr "WORD") ->
  lookup "WAV:UNS" r = Some (VBool u) ->
  lookup "WAV:BYT" r = Some (VStr x) ->
  fst (get_data_format None (mkWorld (mkDevice r p) l))
  = Ok (mkDataFormat (Some 2) (if u then KindUInt else KindInt)
          (Some (if String.eqb (Py.upper x) "LSBF" then ">" else "<"))).
Proof.
  intros Hf Hu Hb. unfold get_data_format.
  rewrite bind_assoc.
  erewrite bind_step by (apply sim_ask_text; exact Hf).
  rewrite bind_ret_l.
  change (Py.startswith (Py.upper "WORD") "ASC") with false.
  change (Py.startswith (Py.upper "WORD") "WORD") with true.
  cbv iota.
  erewrite bind_step by (apply sim_ask_bool_flag; exact Hu).
  erewrite bind_step by (apply sim_ask_text; exact Hb).
  reflexivity.
Qed.

(** X6: on the instrument that stores what is written and answers with what
    is stored, [set_data_format] on a supported binary descriptor returns
    the requested signedness and the requested byte order ([>] when [>] was
    asked for, [<] otherwise), whatever the state before; the size returned
    is 2 also when 1 was requested. *)
Theorem set_data_format_round_trip (scope : IAgilentScope) (d : device)
    (l : list event) (sz : Z) (k : fmt_kind) (bo : option string) :
  (sz = 1 \/ sz = 2) -> (k = KindInt \/ k = KindUInt) ->
  fst (set_data_format scope (FmtDesc (mkDataFormat (Some sz) k bo)) (mkWorld d l))
  = Ok (mkDataFormat (Some 2) k
          (Some (if byteorder_is (mkDataFormat (Some sz) k bo) ">"
                 then ">" else "<"))).
Proof.
  intros Hsz Hk. destruct d as [r p].
  assert (Hval : negb (str_in (kind_code k) "iu") || negb (size_in_1_2 (Some sz))
                 = false)
    by (destruct Hsz as [-> | ->], Hk as [-> | ->]; reflexivity).
  assert (Hasc : is_ascii (mkDataFormat (Some sz) k bo) = false)
    by (destruct Hk as [-> | ->]; reflexivity).
  unfold set_data_format. rewrite Hasc. cbn [kind size]. rewrite Hval.
  cbn [obj_eqb size_obj].
  set (big := byteorder_is _ ">").
  rewrite !bind_assoc.
  destruct Hk as [-> | ->]; destruct big.
  all: change (kind_code KindInt =? "u")%string with false;
       change (kind_code KindUInt =? "u")%string with true; cbv iota.
  all: repeat (rewrite ?bind_assoc; erewrite bind_step by apply sim_write_step).
  all: (eapply eq_trans;
        [ eapply sim_get_data_format_word;
          [ rewrite lookup_store_other by reflexivity; apply lookup_store_same
          | rewrite !lookup_store_other by reflexivity; apply lookup_store_same
          | apply lookup_store_same ]
        | reflexivity ]).
Qed.

End RegisterFile.

Lemma set_data_format_round_trip_witness :
  fst (set_data_format Sim.scope3
         (FmtDesc (mkDataFormat (Some 1) KindUInt (Some ">")))
         (Sim.start Sim.bench))
  = Ok (mkDataFormat (Some 2) KindUInt (Some ">")).
Proof.
  refine (set_data_format_round_trip Sim.scope3 Sim.bench []
            1 KindUInt (Some ">") _ _); [now left | now right].
Defined.

(** ** Horizontal position *)

Section HorizontalPosition.

Context {D : Type} {core : Core D}.
Variable self : IAgilentScope.

Lemma clamp_bounds (x : float) :
  (py_min (py_max x 0) 100 <? 0)%float = false
  /\ (100 <? py_min (py_max x 0) 100)%float = false.
Proof.
  unfold py_max. destruct (x <? 0)%float eqn:E0.
  - split; vm_compute; reflexivity.
  - unfold py_min. destruct (100 <? x)%float eqn:E1.
    + split; vm_compute; reflexivity.
    + split; assumption.
Qed.

(** X7: in a position mode other than real_center the position computed
    from a centre time, which is the value [set_horizontal_offset] writes,
    is never below 0 and never above 100, and costs one query of the time
    scale; in the mode real_center it is the centre time itself, with no
    I/O. *)
Theorem to_horizontal_pos_clamped (t : float) (w : world D) :
  (_hor_pos_mode self <> "real_center" ->
   forall p w', _to_horizontal_pos self t w = (Ok p, w') ->
     (p <? 0)%float = false /\ (100 <? p)%float = false
     /\ log w' = (log w ++ [EvAsk ":TIM:SCAL?" "float"])%list)
  /\ (_hor_pos_mode self = "real_center" ->
      _to_horizontal_pos self t w = (Ok t, w)).
Proof.
  split.
  - intros Hm p w' H. unfold _to_horizontal_pos in H.
    destruct (String.eqb (_hor_pos_mode self) "real_center") eqn:E;
      [apply String.eqb_eq in E; contradiction |].
    apply bind_inv in H. destruct H as (span & w1 & Hs & H).
    apply bind_inv in H. destruct H as (q & w1' & Hq & H).
    apply lift_inv in Hq. destruct Hq as [_ ->].
    apply ret_inv in H. destruct H as [<- ->].
    unfold get_horizontal_span in Hs.
    apply bind_inv in Hs. destruct Hs as (v & w2 & Hv & Hs).
    apply ret_inv in Hs. destruct Hs as [_ ->].
    apply io_inv in Hv. destruct Hv as [_ Hl].
    destruct (clamp_bounds (q * 100 + 50)%float) as [H0 H1].
    auto.
  - intros Hm. unfold _to_horizontal_pos. rewrite Hm. reflexivity.
Qed.

End HorizontalPosition.

Lemma to_horizontal_pos_clamped_witness :
  let frac := mkScope [1; 2] "frac" (Some ("PROB", "att"))
                (mkDataFormat (Some 1) KindInt (Some "<")) in
  fst (_to_horizontal_pos frac 1 (Sim.start Sim.bench)) = Ok 100%float
  /\ (100 <? 100)%float = false.
Proof.
  intros frac.
  assert (H : exists w', _to_horizontal_pos frac 1 (Sim.start Sim.bench)
                         = (Ok 100%float, w'))
    by (eexists; vm_compute; reflexivity).
  destruct H as [w' H]. split; [now rewrite H |].
  assert (Hm : _hor_pos_mode frac <> "real_center") by discriminate.
  exact (proj1 (proj2 (proj1 (to_horizontal_pos_clamped frac 1 _) Hm _ _ H))).
Defined.

(** ** What the multiplexer sends *)

Section MuxEmission.

Context {D : Type} {core : Core D}.

Lemma emits_try {A} (P : event -> Prop) (c : M D A) :
  emits P c -> emits P (try_ c).
Proof.
  intros H w. destruct (H w) as (evs & Hl & Hp). exists evs.
  unfold try_. destruct (c w) as [r w1]. simpl in *. auto.
Qed.

Lemma emits_mux_over {A} (P : event -> Prop) (allow_partial : bool)
    (func : value -> M D A) (cs : list value) :
  (forall c, emits P (func c)) -> emits P (mux_over allow_partial func cs).
Proof.
  intros H. induction cs as [| c cs IH]; cbn [mux_over]; [apply emits_ret |].
  apply emits_bind.
  - destruct allow_partial; [apply emits_try | apply emits_fmap]; apply H.
  - intros r. apply emits_bind; [apply IH | intros; apply emits_ret].
Qed.

Lemma emits_muxchannel {A} (P : event -> Prop) (rk : option return_kind)
    (func : value -> M D A) (self : IAgilentScope) (arg : chan_arg) :
  (forall c, emits P (func c)) -> emits P (muxchannel rk func self arg).
Proof.
  intros H. unfold muxchannel, muxcall.
  destruct arg as [c | cs].
  - destruct (special_lookup _ c).
    + apply emits_bind; [now apply emits_mux_over | intros; apply emits_ret].
    + now apply emits_fmap.
  - apply emits_bind; [now apply emits_mux_over | intros; apply emits_ret].
Qed.

Lemma emits_use_parameters {A} (P : event -> Prop) (cls : EnumParameterClass)
    (f : string -> M D A) (c : value) :
  (forall ch, emits P (f ch)) -> emits P (use_parameters cls f c).
Proof.
  intros H. unfold use_parameters.
  apply emits_bind; [apply emits_lift | assumption].
Qed.

End MuxEmission.

(** ** Fetching a preamble *)

Section FetchPreamble.

Context {D : Type} {core : Core D}.
Variable self : IAgilentScope.

Lemma format_query_is_ask (e : event) : is_format_query e -> is_ask e.
Proof. intros [-> | [-> | ->]]; exact I. Qed.

Lemma build_wfmpre_asks (data : list string) :
  emits is_ask (@_build_wfmpre D core data).
Proof.
  eapply emits_weaken; [apply format_query_is_ask | apply build_wfmpre_emits].
Qed.

(** X8: fetching the preamble of the current channel changes no setting of
    the device: without [enable] it only queries; with [enable] the one
    command it can send is the one that switches the display of a channel
    on. *)
Theorem get_wfmpre_current_channel :
  emits is_ask (get_wfmpre self None false)
  /\ emits is_ask_or_enable (get_wfmpre self None true).
Proof.
  split; unfold get_wfmpre, _change_channel.
  - apply emits_bind; [apply emits_ret | intros _].
    apply emits_bind; [apply emits_ret | intros _].
    apply emits_bind; [now apply emits_io | intros data].
    apply build_wfmpre_asks.
  - apply emits_bind; [apply emits_ret | intros _].
    apply emits_bind.
    + apply emits_bind.
      * unfold _get_channel, get_selected_channel.
        apply emits_bind; [apply emits_io; now left | intros; apply emits_lift].
      * intros ch. apply emits_bind.
        -- apply emits_muxchannel. intros c. apply emits_use_parameters.
           intros name. apply emits_io. now left.
        -- intros on. destruct (negb (mux_truth on)); [| apply emits_ret].
           apply emits_bind; [| intros; apply emits_ret].
           apply emits_muxchannel. intros c. apply emits_use_parameters.
           intros name. apply emits_bind.
           ++ apply emits_io. right. now exists name.
           ++ intros _. apply emits_io. now left.
    + intros _. apply emits_bind; [apply emits_io; now left | intros data].
      eapply emits_weaken; [| apply build_wfmpre_asks]. intros e He. now left.
Qed.

(** X9: when the reply to the preamble query splits into fewer than 10
    fields, [get_wfmpre] on the current channel raises the driver's error
    "incomplete preamble" after that one query, the device being as the
    query left it. *)
Theorem get_wfmpre_short_reply (w : world D) (reply : string) (d' : D) :
  dev_ask ":WAV:PRE?" (dev w) = (Ok reply, d') ->
  (List.length (Py.split ";" reply) < 10)%nat ->
  get_wfmpre self None false w
  = (Raise (AgilentError
       ("incomplete preamble: " ++ Py.repr_list (Py.split ";" reply))),
     mkWorld d' (log w ++ [EvAsk ":WAV:PRE?" "string"])).
Proof.
  intros Ha Hlen. unfold get_wfmpre, _change_channel.
  rewrite !bind_ret_l.
  erewrite bind_step by (unfold ask, io; change (":" ++ _wfmpre_comm ++ "?")
                           with ":WAV:PRE?"; rewrite Ha; reflexivity).
  now apply build_wfmpre_short.
Qed.

End FetchPreamble.

Lemma get_wfmpre_short_reply_witness :
  fst (get_wfmpre Sim.scope3 None false
         (Sim.start (SimCases.set_reg "WAV:PRE" (VStr "1;0;1000") Sim.bench)))
  = Raise (AgilentError "incomplete preamble: ['1', '0', '1000']").
Proof.
  erewrite (get_wfmpre_short_reply Sim.scope3 _ "1;0;1000");
    [reflexivity | reflexivity | vm_compute; lia].
Defined.

(** ** Reading sweeps *)

Section MapM.

Context {D : Type}.

Lemma mapM_inv {A B} (f : A -> M D B) (l : list A) :
  forall (w w' : world D) (bs : list B),
    mapM f l w = (Ok bs, w') ->
    Forall2 (fun a b => exists w1 w2, f a w1 = (Ok b, w2)) l bs.
Proof.
  induction l as [| a l IH]; intros w w' bs H; cbn [mapM] in H.
  - apply ret_inv in H. destruct H as [<- _]. constructor.
  - apply bind_inv in H. destruct H as (b & w1 & Hb & H).
    apply bind_inv in H. destruct H as (bs' & w2 & Hbs & H).
    apply ret_inv in H. destruct H as [<- _].
    constructor; [now exists w, w1 | eapply IH; eassumption].
Qed.

Lemma mapM_length {A B} (f : A -> M D B) (l : list A)
    (w w' : world D) (bs : list B) :
  mapM f l w = (Ok bs, w') -> List.length bs = List.length l.
Proof.
  intros H. apply mapM_inv in H. symmetry. eapply Forall2_length; eassumption.
Qed.

End MapM.

Section ReadSweeps.

Context {D : Type} {core : Core D} {ext : CoreExt D}.
Variable self : IAgilentScope.

Lemma emits_scale_data_given (P : event -> Prop) (trace : list sample)
    (p : wfmpre) :
  emits P (_scale_data self trace (Some p)).
Proof.
  unfold _scale_data. apply emits_bind; [apply emits_ret | intros q].
  destruct (negb _); [apply emits_raise | apply emits_ret].
Qed.

(** X10: a sweep read with a preamble handed in never queries the device:
    what it sends is the channel selection, the data request and the
    transfer, the preamble's format alone deciding how the transfer is read;
    and a channel its parameter class rejects raises with the device
    untouched. *)
Theorem read_sweep_fast_given_preamble (channel : value) (p : wfmpre) :
  emits is_transfer (_read_sweep_fast self channel (Some p))
  /\ (forall e w,
         param_direct (p_input_channel self) channel = Raise e ->
         _read_sweep_fast self channel (Some p) w = (Raise e, w)).
Proof.
  split.
  - unfold _read_sweep_fast. apply emits_use_parameters. intros ch.
    apply emits_bind; [apply emits_io; right; now exists ch | intros _].
    apply emits_bind; [apply emits_ret | intros q].
    apply emits_bind; [apply emits_io; now left | intros _].
    apply emits_bind.
    + destruct (is_ascii (fmt q));
        (apply emits_bind; [now apply emits_io | intros; apply emits_ret]).
    + intros dh. apply emits_bind; [apply emits_lift | intros trace].
      destruct (negb _); [apply emits_raise | apply emits_scale_data_given].
  - intros e w H. unfold _read_sweep_fast, use_parameters.
    now apply bind_lift_raise.
Qed.

(** A returned sweep has the rows its preamble announces. *)
Lemma read_sweep_fast_rows (channel : value) (p : wfmpre)
    (w w' : world D) (s : waveform) :
  _read_sweep_fast self channel (Some p) w = (Ok s, w') ->
  Z.of_nat (List.length s) = pts p.
Proof.
  intros H. rewrite read_sweep_fast_factor in H.
  apply bind_inv in H. destruct H as ([q trace] & w1 & Hd & H).
  cbn [fst snd] in H.
  apply decoded_trace_given in Hd. subst q.
  destruct (Z.of_nat (List.length trace) =? pts p) eqn:E; cbn [negb] in H;
    [| discriminate].
  apply scale_data_rows in H. destruct H as (_ & Hl & _).
  apply Z.eqb_eq in E. now rewrite Hl.
Qed.

Lemma normalize_channels_pure (channels chans : list value) (w w1 : world D) :
  mapM (_normalize_channel self) channels w = (Ok chans, w1) -> w1 = w.
Proof.
  intros H. unfold _normalize_channel in H.
  revert w w1 chans H.
  induction channels as [| c l IH]; intros w w1 chans H; cbn [mapM] in H.
  - apply ret_inv in H. now destruct H.
  - apply bind_inv in H. destruct H as (b & wa & Hb & H).
    apply bind_inv in H. destruct H as (bs & wb & Hbs & H).
    apply ret_inv in H. destruct H as [_ ->].
    unfold fmap in Hb. apply bind_inv in Hb. destruct Hb as (x & wc & Hx & Hb).
    apply lift_inv in Hx. destruct Hx as [_ ->].
    apply ret_inv in Hb. destruct Hb as [_ ->].
    eapply IH; eassumption.
Qed.

(** What a successful read of several sweeps went through. *)
Lemma read_multiple_sweeps_inv (channels : list value) (wfmpres : wfmpres_arg)
    (ensure_fmt return_wfmpres : bool) (w w' : world D) (r : sweeps_result) :
  channels <> [] ->
  read_multiple_sweeps self channels wfmpres ensure_fmt return_wfmpres w
  = (Ok r, w') ->
  exists chans d sweeps w2,
    mapM (_normalize_channel self) channels w = (Ok chans, w)
    /\ mapM (fun ch => _read_sweep_fast self ch (dict_get ch d)) chans w2
       = (Ok sweeps, w')
    /\ r = (if return_wfmpres then SweepsWith sweeps d else Sweeps sweeps)
    /\ exists w1,
         fill_wfmpres self chans
           (match wfmpres with
            | WNone => []
            | WList l => dict_of_zip chans l
            | WDict d0 => d0
            end) w1 = (Ok d, w2).
Proof.
  intros Hne H. unfold read_multiple_sweeps in H.
  destruct channels as [| c0 cs]; [congruence |].
  apply bind_inv in H. destruct H as (chans & w1 & Hn & H).
  pose proof (normalize_channels_pure _ _ _ _ Hn) as ->.
  apply bind_inv in H. destruct H as ([] & wa & _ & H).
  apply bind_inv in H. destruct H as (d & wb & Hfill & H).
  apply bind_inv in H. destruct H as (sweeps & wc & Hs & H).
  apply ret_inv in H. destruct H as [<- ->].
  exists chans, d, sweeps, wb. repeat split; try assumption. now exists wa.
Qed.

(** X11: a read of several sweeps that returns gives one sweep per channel
    asked for, in the tuple form exactly when [return_wfmpres] is set and
    there is a channel: with no channel it returns the plain empty list
    without any I/O, also when the preambles are asked for. *)
Theorem read_multiple_sweeps_one_per_channel (channels : list value)
    (wfmpres : wfmpres_arg) (ensure_fmt return_wfmpres : bool)
    (w w' : world D) (r : sweeps_result) :
  read_multiple_sweeps self channels wfmpres ensure_fmt return_wfmpres w
  = (Ok r, w') ->
  List.length (sweeps_of r) = List.length channels
  /\ (channels = [] -> r = Sweeps [] /\ w' = w)
  /\ (channels <> [] -> return_wfmpres = true ->
      exists d, r = SweepsWith (sweeps_of r) d).
Proof.
  intros H. destruct channels as [| c0 cs].
  - unfold read_multiple_sweeps in H. apply ret_inv in H. destruct H as [<- ->].
    repeat split; congruence.
  - assert (Hne : c0 :: cs <> []) by discriminate.
    destruct (read_multiple_sweeps_inv _ _ _ _ _ _ _ Hne H)
      as (chans & d & sweeps & w2 & Hn & Hs & -> & _).
    apply mapM_length in Hn. apply mapM_length in Hs.
    split; [| split].
    + destruct return_wfmpres; cbn [sweeps_of]; congruence.
    + discriminate.
    + intros _ ->. now exists d.
Qed.

(** X12: in the result of a read that returns the preambles, every sweep
    whose channel has a preamble in the returned dictionary has exactly that
    preamble's number of points as rows; the channels are the normalized
    names of those asked for, in order. *)
Theorem read_multiple_sweeps_rows (channels : list value)
    (wfmpres : wfmpres_arg) (ensure_fmt : bool)
    (w w' : world D) (sweeps : list waveform) (d : wfmpre_dict) :
  read_multiple_sweeps self channels wfmpres ensure_fmt true w
  = (Ok (SweepsWith sweeps d), w') ->
  exists chans,
    mapM (_normalize_channel self) channels w = (Ok chans, w)
    /\ Forall2 (fun ch s =>
                  forall p, dict_get ch d = Some p ->
                            Z.of_nat (List.length s) = pts p)
               chans sweeps.
Proof.
  intros H. destruct channels as [| c0 cs]; [discriminate H |].
  assert (Hne : c0 :: cs <> []) by discriminate.
  destruct (read_multiple_sweeps_inv _ _ _ _ _ _ _ Hne H)
    as (chans & d' & sweeps' & w2 & Hn & Hs & Hr & _).
  injection Hr as <- <-.
  exists chans. split; [assumption |].
  apply mapM_inv in Hs.
  eapply Forall2_impl; [| exact Hs].
  intros ch s (wa & wb & Hrun) p Hp. rewrite Hp in Hrun.
  eapply read_sweep_fast_rows; eassumption.
Qed.

(** X13: [read_sweep] returns exactly when the read of the one-channel list
    returns, with its single sweep: the index [0] never fails. *)
Theorem read_sweep_is_single (channel : value) (pre : option wfmpre)
    (ensure_fmt : bool) (w w' : world D) (r : sweeps_result) :
  read_multiple_sweeps self [channel] (WList [pre]) ensure_fmt false w
  = (Ok r, w') ->
  exists s, r = Sweeps [s] /\ read_sweep self channel pre ensure_fmt w = (Ok s, w').
Proof.
  intros H.
  assert (Hne : [channel] <> []) by discriminate.
  destruct (read_multiple_sweeps_inv _ _ _ _ _ _ _ Hne H)
    as (chans & d & sweeps & w2 & Hn & Hs & -> & _).
  apply mapM_length in Hn. apply mapM_length in Hs.
  destruct sweeps as [| s [| s' tl]]; cbn in *; try congruence.
  exists s. split; [reflexivity |].
  unfold read_sweep. erewrite bind_step by exact H. reflexivity.
Qed.

(** X14: a raw read with no format and no channel given sends no command
    but the data request: it queries the format, requests the data and
    takes the transfer. *)
Theorem read_raw_data_current_settings :
  emits (fun e => is_ask e \/ e = EvWrite "WAV:DATA?" None None
                  \/ exists what, e = EvRead what)
        (read_raw_data self None None).
Proof.
  unfold read_raw_data, _change_channel.
  apply emits_bind.
  - eapply emits_weaken; [| apply get_data_format_emits].
    intros e He. left. now apply format_query_is_ask.
  - intros f. apply emits_bind; [apply emits_ret | intros _].
    apply emits_bind; [apply emits_io; right; now left | intros _].
    apply emits_bind; [| intros; apply emits_lift].
    destruct (is_ascii f);
      (apply emits_bind; [apply emits_io; right; right; eauto
                         | intros; apply emits_ret]).
Qed.

End ReadSweeps.

Lemma read_sweep_fast_given_preamble_witness :
  exists e,
    _read_sweep_fast Sim.scope3 (VInt 7) (Some (SimCases.example_wfmpre 3))
      (Sim.start Sim.bench)
    = (Raise e, Sim.start Sim.bench).
Proof.
  eexists.
  apply (proj2 (read_sweep_fast_given_preamble Sim.scope3 (VInt 7)
                  (SimCases.example_wfmpre 3))).
  reflexivity.
Defined.

Lemma read_multiple_sweeps_one_per_channel_witness :
  exists r w',
    read_multiple_sweeps (core := SimMore.core_tokens) Sim.scope3
      [VInt 1; VInt 3] WNone false false (Sim.start SimMore.bench3) = (Ok r, w')
    /\ List.length (sweeps_of r) = 2%nat.
Proof.
  destruct (read_multiple_sweeps (core := SimMore.core_tokens) Sim.scope3
              [VInt 1; VInt 3] WNone false false (Sim.start SimMore.bench3))
    as [[r | e] w'] eqn:E; [| vm_compute in E; discriminate E].
  exists r, w'. split; [reflexivity |].
  exact (proj1 (read_multiple_sweeps_one_per_channel
                  (core := SimMore.core_tokens) _ _ _ _ _ _ _ _ E)).
Defined.

Lemma read_multiple_sweeps_rows_witness :
  exists chans sweeps d w',
    read_multiple_sweeps (core := SimMore.core_tokens) Sim.scope3
      [VInt 1; VInt 3] WNone false true (Sim.start SimMore.bench3)
    = (Ok (SweepsWith sweeps d), w')
    /\ Forall2 (fun ch s =>
                  forall p, dict_get ch d = Some p ->
                            Z.of_nat (List.length s) = pts p)
               chans sweeps.
Proof.
  destruct (read_multiple_sweeps (core := SimMore.core_tokens) Sim.scope3
              [VInt 1; VInt 3] WNone false true (Sim.start SimMore.bench3))
    as [[[sweeps | sweeps d] | e] w'] eqn:E;
    [vm_compute in E; discriminate E | | vm_compute in E; discriminate E].
  destruct (read_multiple_sweeps_rows (core := SimMore.core_tokens)
              _ _ _ _ _ _ _ _ E) as (chans & _ & HF).
  exists chans, sweeps, d, w'. split; [reflexivity | exact HF].
Defined.

Lemma read_sweep_is_single_witness :
  exists s w',
    read_sweep (core := SimMore.core_tokens) Sim.scope3 (VInt 1) None false
      (Sim.start SimMore.bench3) = (Ok s, w')
    /\ List.length s = 3%nat.
Proof.
  destruct (read_multiple_sweeps (core := SimMore.core_tokens) Sim.scope3
              [VInt 1] (WList [None]) false false (Sim.start SimMore.bench3))
    as [[r | e] w'] eqn:E; [| vm_compute in E; discriminate E].
  destruct (read_sweep_is_single (core := SimMore.core_tokens)
              _ _ _ _ _ _ _ E) as (s & Hr & Hs).
  exists s, w'. split; [exact Hs |].
  subst r. vm_compute in E. injection E as <- _. reflexivity.
Defined.

(** ** More on the preamble parser *)

Section PreambleEdges.

Context {D : Type} {core : Core D}.

Lemma field_app (data extra : list string) (i : nat) :
  (i < List.length data)%nat -> field (data ++ extra) i = field data i.
Proof. intros H. unfold field. now apply app_nth1. Qed.

(** X15: fields after the tenth are ignored: a reply with surplus fields
    gives the outcome of its first ten. *)
Theorem build_wfmpre_ignores_surplus (data extra : list string) (w : world D) :
  (10 <= List.length data)%nat ->
  _build_wfmpre (data ++ extra) w = _build_wfmpre data w.
Proof.
  intros H. unfold _build_wfmpre. rewrite length_app.
  replace (Z.of_nat (List.length data + List.length extra) <? 10) with false
    by (symmetry; apply Z.ltb_ge; lia).
  replace (Z.of_nat (List.length data) <? 10) with false
    by (symmetry; apply Z.ltb_ge; lia).
  rewrite !field_app by lia. reflexivity.
Qed.

Lemma int_raises_value_error (s : string) (e : exn) :
  PyNum.int s = Raise e -> exists msg, e = ValueError msg.
Proof.
  unfold PyNum.int.
  destruct (PyNum.sign _) as [neg body].
  destruct (PyNum.digitpart body) as [[ds [| c r]] |];
    [destruct (PyNum.max_str_digits <? _) | |]; intros H;
    try discriminate H; injection H as <-; eauto.
Qed.

Lemma fmt_table_negative (c0 : Z) :
  - 4 <= c0 < 0 ->
  PyNum.tuple_index fmt_table c0 = PyNum.tuple_index fmt_table (c0 + 4).
Proof.
  intros H.
  assert (E : c0 = -4 \/ c0 = -3 \/ c0 = -2 \/ c0 = -1) by lia.
  destruct E as [-> | [-> | [-> | ->]]]; reflexivity.
Qed.

Lemma fmt_table_out_of_range (c0 : Z) :
  (c0 < - 4 \/ 3 < c0) ->
  PyNum.tuple_index fmt_table c0
  = Raise (IndexError (if fits_int64 c0 then "tuple index out of range"
                       else "cannot fit 'int' into an index-sized integer")).
Proof.
  intros H. unfold PyNum.tuple_index.
  change ((- 2 ^ 63 <=? c0) && (c0 <? 2 ^ 63)) with (fits_int64 c0).
  destruct (fits_int64 c0); [| reflexivity]. cbn [negb].
  change (Z.of_nat (List.length fmt_table)) with 4.
  destruct (c0 <? 0) eqn:E.
  - apply Z.ltb_lt in E.
    replace ((0 <=? c0 + 4) && (c0 + 4 <? 4)) with false
      by (symmetry; apply andb_false_iff; left; apply Z.leb_gt; lia).
    reflexivity.
  - apply Z.ltb_ge in E.
    replace ((0 <=? c0) && (c0 <? 4)) with false
      by (symmetry; apply andb_false_iff; right; apply Z.ltb_ge; lia).
    reflexivity.
Qed.

(** X16: on a reply of at least ten fields, a format field that is not an
    integer literal raises Python's ValueError, and a format code outside
    [-4, 3] raises IndexError (whose message tells a code beyond the tuple
    from one beyond any index), both with the device untouched and neither
    in the driver's error class; a negative code in [-4, -1] is taken from
    the end of the table, so the reply parses like the one with the code
    plus 4. *)
Theorem build_wfmpre_format_code (data : list string) (w : world D) :
  (10 <= List.length data)%nat ->
  (forall e, PyNum.int (field data 0) = Raise e ->
     (exists msg, e = ValueError msg) /\ _build_wfmpre data w = (Raise e, w))
  /\ (forall c0, PyNum.int (field data 0) = Ok c0 -> (c0 < - 4 \/ 3 < c0) ->
        _build_wfmpre data w
        = (Raise (IndexError
             (if fits_int64 c0 then "tuple index out of range"
              else "cannot fit 'int' into an index-sized integer")), w))
  /\ (forall c0 s0, PyNum.int (field data 0) = Ok c0 -> - 4 <= c0 < 0 ->
        PyNum.int s0 = Ok (c0 + 4) ->
        _build_wfmpre data w = _build_wfmpre (s0 :: tl data) w).
Proof.
  intros Hlen.
  assert (Hl : (Z.of_nat (List.length data) <? 10) = false)
    by (apply Z.ltb_ge; lia).
  split; [| split].
  - intros e He. split; [eapply int_raises_value_error; eassumption |].
    unfold _build_wfmpre. rewrite Hl. now apply bind_lift_raise.
  - intros c0 Hc Hr. unfold _build_wfmpre. rewrite Hl.
    rewrite (bind_lift_ok _ _ _ _ Hc).
    apply bind_lift_raise. now apply fmt_table_out_of_range.
  - intros c0 s0 Hc Hr Hs.
    destruct data as [| f0 rest]; [cbn in Hlen; lia |].
    unfold _build_wfmpre. cbn [tl List.length] in *. rewrite Hl.
    change (field (s0 :: rest) 0) with s0.
    change (field (f0 :: rest) 0) with f0 in *.
    rewrite (bind_lift_ok _ _ _ _ Hc), (bind_lift_ok _ _ _ _ Hs).
    rewrite (fmt_table_negative c0 Hr). reflexivity.
Qed.

End PreambleEdges.

Lemma build_wfmpre_ignores_surplus_witness :
  fst (_build_wfmpre (Py.split ";" "3;0;1000;1;1e-6;0;-500;0.01;0;0;7;8")
         (Sim.start Sim.bench))
  = fst (_build_wfmpre (Py.split ";" "3;0;1000;1;1e-6;0;-500;0.01;0;0")
           (Sim.start Sim.bench)).
Proof.
  change (Py.split ";" "3;0;1000;1;1e-6;0;-500;0.01;0;0;7;8")
    with (Py.split ";" "3;0;1000;1;1e-6;0;-500;0.01;0;0" ++ ["7"; "8"])%list.
  rewrite build_wfmpre_ignores_surplus; [reflexivity | vm_compute; lia].
Defined.

Lemma build_wfmpre_format_code_witness :
  let rest := ["0"; "1000"; "1"; "1e-6"; "0"; "-500"; "0.01"; "0"; "0"] in
  _build_wfmpre ("-1" :: rest) (Sim.start Sim.bench)
  = _build_wfmpre ("3" :: rest) (Sim.start Sim.bench)
  /\ fst (_build_wfmpre ("4" :: rest) (Sim.start Sim.bench))
     = Raise (IndexError "tuple index out of range")
  /\ fst (_build_wfmpre ("9223372036854775808" :: rest) (Sim.start Sim.bench))
     = Raise (IndexError "cannot fit 'int' into an index-sized integer")
  /\ (exists msg,
        fst (_build_wfmpre (String (ascii_of_nat 28) "7" :: rest)
               (Sim.start Sim.bench))
        = Raise (ValueError msg)).
Proof.
  intros rest.
  assert (Hlen : forall s0, (10 <= List.length (s0 :: rest))%nat)
    by (intros s0; cbn; lia).
  split; [| split; [| split]].
  - apply (proj2 (proj2 (build_wfmpre_format_code ("-1" :: rest)
                           (Sim.start Sim.bench) (Hlen _))) (-1) "3");
      [vm_compute; reflexivity | lia | vm_compute; reflexivity].
  - rewrite (proj1 (proj2 (build_wfmpre_format_code ("4" :: rest)
                             (Sim.start Sim.bench) (Hlen _))) 4);
      [reflexivity | vm_compute; reflexivity | lia].
  - rewrite (proj1 (proj2 (build_wfmpre_format_code
                             ("9223372036854775808" :: rest)
                             (Sim.start Sim.bench) (Hlen _)))
               9223372036854775808);
      [reflexivity | vm_compute; reflexivity | lia].
  - assert (He : exists e, PyNum.int (String (ascii_of_nat 28) "7") = Raise e)
      by (eexists; vm_compute; reflexivity).
    destruct He as [e He].
    destruct (proj1 (build_wfmpre_format_code
                       (String (ascii_of_nat 28) "7" :: rest)
                       (Sim.start Sim.bench) (Hlen _)) e He) as [[msg ->] Hr].
    exists msg. now rewrite Hr.
Defined.

(** ** Channel names *)

Lemma upper_append (a b : string) : Py.upper (a ++ b) = Py.upper a ++ Py.upper b.
Proof. induction a as [| c a IH]; cbn; [reflexivity | now rewrite IH]. Qed.

Lemma upper_uint (d : Decimal.uint) :
  Py.upper (NilEmpty.string_of_uint d) = NilEmpty.string_of_uint d.
Proof.
  induction d; cbn [NilEmpty.string_of_uint Py.upper];
    try reflexivity; now rewrite IHd.
Qed.

Lemma upper_str_of_int (z : Z) : Py.upper (Py.str_of_int z) = Py.str_of_int z.
Proof.
  unfold Py.str_of_int, NilZero.string_of_int.
  destruct (Z.to_int z) as [d | d]; unfold NilZero.string_of_uint.
  - destruct d; try reflexivity; apply upper_uint.
  - cbn [Py.upper]. change (Py.upper_char "-") with "-"%char. f_equal.
    destruct d; try reflexivity; apply upper_uint.
Qed.

(** X17: the names [get_channels] reports for the main channels are the
    wire names registered for the input channels in the class's upper case,
    one per channel counted by [get_channels_number]; the full list is these
    followed by ext, line and wgen. *)
Theorem get_channels_names (self : IAgilentScope) :
  get_channels self true
  = map (fun p => enum_case (p_input_channel self) (snd p))
        (value_map (p_input_channel self))
  /\ Z.of_nat (List.length (get_channels self true)) = get_channels_number self
  /\ get_channels self false
     = (get_channels self true ++ ["ext"; "line"; "wgen"])%list.
Proof.
  split; [| split].
  - unfold get_channels, p_input_channel, _main_channels.
    cbn [value_map enum_case value_case]. rewrite map_map.
    apply map_ext. intros i. cbn [snd].
    now rewrite upper_append, upper_str_of_int.
  - unfold get_channels, get_channels_number. now rewrite length_map.
  - reflexivity.
Qed.

(** ** The commands of a format change *)

Section FormatChange.

Context {D : Type} {core : Core D}.
Variable self : IAgilentScope.

(** X18: besides its queries [set_data_format] sends only the commands of
    the descriptor: for ASCII the single [:WAV:FORM ASCII]; for a binary
    descriptor the signedness ([true] exactly for kind [u]), [:WAV:FORM WORD]
    and the byte order, [LSBF] when the requested order is [>] and [MSBF]
    otherwise. *)
Theorem set_data_format_commands (f : DataFormat) :
  emits (fun e => is_ask e \/ is_format_command f e)
        (set_data_format self (FmtDesc f)).
Proof.
  unfold set_data_format, is_format_command. apply emits_bind.
  - destruct (is_ascii f); [apply emits_io; now right |].
    destruct (negb _ || negb _); [apply emits_raise |].
    apply emits_bind.
    + destruct (String.eqb (kind_code (kind f)) "u");
        apply emits_io; right; now left.
    + intros _.
      replace (obj_eqb (size_obj (size f)) (OStr "1")) with false
        by (destruct (size f); reflexivity).
      apply emits_bind; [apply emits_io; right; right; now left | intros _].
      destruct (byteorder_is f ">"); apply emits_io; right; right; now right.
  - intros _. eapply emits_weaken; [| apply get_data_format_emits].
    intros e He. left. destruct He as [-> | [-> | ->]]; exact I.
Qed.

End FormatChange.

(** ** Preambles handed to a read *)

Section KeptPreambles.

Context {D : Type} {core : Core D} {ext : CoreExt D}.
Variable self : IAgilentScope.








End KeptPreambles.


(** ** A scope without an attenuation command *)

Section ProbeAttenuation.

Context {D : Type} {core : Core D}.
Variable self : IAgilentScope.

Lemma pure_try {A} (c : M D A) : is_pure c -> is_pure (try_ c).
Proof.
  intros [r Hr]. exists (Ok r). intros w. unfold try_. now rewrite Hr.
Qed.

Lemma pure_mux_over {A} (func : value -> M D A) (cs : list value) :
  (forall c, is_pure (func c)) -> is_pure (mux_over true func cs).
Proof.
  intros H. induction cs as [| c cs IH]; cbn [mux_over]; [apply pure_ret |].
  apply pure_bind; [apply pure_try, H | intros r].
  apply pure_bind; [exact IH | intros; apply pure_ret].
Qed.

Lemma pure_muxchannel {A} (rk : option return_kind) (func : value -> M D A)
    (arg : chan_arg) :
  (forall c, is_pure (func c)) -> is_pure (muxchannel rk func self arg).
Proof.
  intros H. unfold muxchannel, muxcall. destruct arg as [c | cs].
  - destruct (special_lookup _ c).
    + apply pure_bind; [now apply pure_mux_over | intros; apply pure_ret].
    + unfold fmap. apply pure_bind; [apply H | intros; apply pure_ret].
  - apply pure_bind; [now apply pure_mux_over | intros; apply pure_ret].
Qed.

(** X20: on a scope class without an attenuation command, reading the probe
    attenuation does no I/O, and setting it sends nothing either: the setter
    is the getter, whatever the value and the channel argument, and for one
    valid channel both return 1 with the device untouched. *)
Theorem probe_attenuation_without_command (channel : chan_arg)
    (attenuation : float) :
  _probe_attenuation_comm self = None ->
  is_pure (get_probe_attenuation self channel)
  /\ (forall w, set_probe_attenuation self channel attenuation w
                = get_probe_attenuation self channel w)
  /\ (forall c name w,
         channel = One c -> c <> VStr "all" ->
         param_direct (p_input_channel self) c = Ok name ->
         set_probe_attenuation self channel attenuation w
         = (Ok (MuxScalar 1%float), w)).
Proof.
  intros H.
  assert (Heq : forall w, set_probe_attenuation self channel attenuation w
                          = get_probe_attenuation self channel w).
  { intros w. unfold set_probe_attenuation, get_probe_attenuation.
    apply muxchannel_ext. intros c w'.
    unfold use_parameters, wip_get_probe_attenuation. rewrite H.
    unfold bind, lift. destruct (param_direct _ c); reflexivity. }
  split; [| split; [exact Heq |]].
  - unfold get_probe_attenuation. apply pure_muxchannel. intros c.
    unfold use_parameters, wip_get_probe_attenuation. rewrite H.
    apply pure_bind; [apply pure_lift | intros; apply pure_ret].
  - intros c name w -> Hc Hn. rewrite Heq.
    unfold get_probe_attenuation. rewrite mux_one by assumption.
    unfold fmap, use_parameters, wip_get_probe_attenuation. rewrite H.
    rewrite bind_assoc, (bind_lift_ok _ _ _ _ Hn). reflexivity.
Qed.

End ProbeAttenuation.

Lemma probe_attenuation_without_command_witness :
  let scope := mkScope [1; 2] "real_center" None
                 (mkDataFormat (Some 1) KindInt (Some "<")) in
  set_probe_attenuation scope (One (VInt 2)) 10%float (Sim.start Sim.bench)
  = (Ok (MuxScalar 1%float), Sim.start Sim.bench).
Proof.
  intros scope.
  apply (proj2 (proj2 (probe_attenuation_without_command scope
                         (One (VInt 2)) 10%float eq_refl))
           (VInt 2) "CHAN2");
    [reflexivity | discriminate | reflexivity].
Defined.
